(** * PubMed-Fetcher: a shallow embedding of [pubmed.py] and [cli.py]

    The program sends two HTTP requests (esearch, then efetch), decodes the
    JSON answer of the first, parses the XML answer of the second with
    [xml.etree.ElementTree] and builds one dict per [PubmedArticle] element.

    The embedding keeps the shape of the Python code:
    - Python values that flow through the code ([response.json()], the request
      parameters, the values stored in a paper dict) are an inductive [pyval];
      a [str] is the [string] of the bytes of its UTF-8 encoding;
    - a paper is a [dict] with string keys: a [gmap string pyval];
    - an XML element is a rose tree with the attributes of
      [xml.etree.ElementTree.Element];
    - side effects ([requests.get], [typer.echo], [DataFrame.to_csv]) are
      recorded in a trace, exceptions are a second kind of outcome; both are
      threaded by a small monad;
    - everything outside the repository (the network, the JSON decoder, the
      XML parser, pandas) is a field of the record [World]. *)

From Stdlib Require Import ZArith String List Ascii PrimFloat DecimalString.
From stdpp Require Import base option list strings gmap.

Local Open Scope string_scope.
Local Open Scope list_scope.
Local Open Scope Z_scope.

(** ** Python values *)

#[local] Unset Elimination Schemes.

(** A dict is given by its items in insertion order; the keys of a dict are
    pairwise distinct, so that the first binding of a key is the only one. *)
Inductive pyval : Type :=
| PyNone
| PyBool (b : bool)
| PyInt (n : Z)
| PyFloat (f : float)
| PyStr (s : string)
| PyList (l : list pyval)
| PyDict (items : list (string * pyval)).

#[local] Set Elimination Schemes.

(** [bool(v)], the test performed by [if v:] and [if not v:]. *)
Definition truthy (v : pyval) : bool :=
  match v with
  | PyNone => false
  | PyBool b => b
  | PyInt n => negb (n =? 0)
  | PyFloat f => negb (PrimFloat.eqb f PrimFloat.zero)
  | PyStr s => negb (String.eqb s "")
  | PyList l => match l with [] => false | _ :: _ => true end
  | PyDict items => match items with [] => false | _ :: _ => true end
  end.

(** [str(o)] for [o : Optional[str]], as performed by an f-string field. *)
Definition py_format (o : option string) : string :=
  match o with
  | Some s => s
  | None => "None"
  end.

(** The Python value of an attribute of type [Optional[str]]. *)
Definition py_opt_str (o : option string) : pyval :=
  match o with
  | Some s => PyStr s
  | None => PyNone
  end.

(** A Python [str] is a sequence of code points; a [string] here is the
    sequence of bytes of its UTF-8 encoding.  A code point is encoded by one
    byte that is not of the form [10xxxxxx], followed by bytes that are. *)
Definition is_continuation (c : ascii) : bool :=
  match c with
  | Ascii _ _ _ _ _ _ b6 b7 => b7 && negb b6
  end.

(** Does the string start in the middle of a code point? *)
Definition starts_with_continuation (s : string) : bool :=
  match s with
  | EmptyString => false
  | String c _ => is_continuation c
  end.

(** The characters of a string, each as a one-character string (iteration
    over a [str]): the string is cut in front of every byte that starts a
    code point, so that the bytes of one code point stay together. *)
Fixpoint chars (s : string) : list string :=
  match s with
  | EmptyString => []
  | String c s' =>
      match chars s' with
      | h :: t =>
          if starts_with_continuation s' then String c h :: t
          else String c EmptyString :: h :: t
      | [] => [String c EmptyString]
      end
  end.

(** The encoding of one code point: a byte that is not a continuation byte,
    followed by continuation bytes only. *)
Fixpoint all_continuation (s : string) : bool :=
  match s with
  | EmptyString => true
  | String c s' => is_continuation c && all_continuation s'
  end.

Definition one_code_point (s : string) : bool :=
  match s with
  | EmptyString => false
  | String c rest => negb (is_continuation c) && all_continuation rest
  end.

(** The first binding of a key in the items of a dict. *)
Fixpoint assoc (k : string) (items : list (string * pyval)) : option pyval :=
  match items with
  | [] => None
  | (k', v) :: rest => if String.eqb k' k then Some v else assoc k rest
  end.

(** ** xml.etree.ElementTree *)

Module ET.

(** [Element]: tag, attributes, the text before the first child, the text
    after the end tag, and the children in document order.  The parser used
    by [ET.fromstring] drops comments and processing instructions, so every
    node of a parsed tree is an element with a string tag. *)
#[local] Unset Elimination Schemes.
Inductive Element : Type :=
  mkElement {
    tag : string;
    attrib : list (string * string);
    text : option string;
    tail : option string;
    children : list Element
  }.
#[local] Set Elimination Schemes.

(** [elem.iter(tag)]: the element itself and all its descendants, in
    document (pre-) order, filtered by tag. *)
Fixpoint iter (t : string) (e : Element) : list Element :=
  (if String.eqb (tag e) t then [e] else [])
    ++ flat_map (iter t) (children e).

(** The steps of a compiled ElementPath expression (the [selector] list of
    [ElementPath.iterfind]).  Only the steps that the paths of [pubmed.py]
    compile to are needed: [.], [//tag] and [tag]. *)
Inductive step : Type :=
| Self
| Descendant (t : string)
| Child (t : string).

(** One selector applied to one element of the current result.

    [prepare_descendant]: [for e in elem.iter(tag): if e is not elem: yield e].
    [elem.iter] yields [elem] first, when its tag matches, and then only
    elements strictly below it, which are never [elem] itself; so the
    selected elements are the matches in the subtrees of the children.

    [prepare_child]: [for e in elem: if e.tag == tag: yield e]. *)
Definition select1 (s : step) (elem : Element) : list Element :=
  match s with
  | Self => [elem]
  | Descendant t => flat_map (iter t) (children elem)
  | Child t => List.filter (fun e => String.eqb (tag e) t) (children elem)
  end.

Definition select (s : step) (result : list Element) : list Element :=
  flat_map (select1 s) result.

(** [ElementPath.iterfind]: [result = [elem]], then every selector in turn. *)
Definition iterfind (elem : Element) (path : list step) : list Element :=
  fold_left (fun result s => select s result) path [elem].

(** [elem.findall(path)] and [elem.find(path)]. *)
Definition findall (elem : Element) (path : list step) : list Element :=
  iterfind elem path.

Definition find (elem : Element) (path : list step) : option Element :=
  head (iterfind elem path).

(** All elements of a tree in document order, the root first. *)
Fixpoint preorder (e : Element) : list Element :=
  e :: flat_map preorder (children e).

(** The elements strictly below the root, in document order. *)
Definition below (e : Element) : list Element :=
  flat_map preorder (children e).

Fixpoint size (e : Element) : nat :=
  S (list_sum (List.map size (children e))).

End ET.

(** The paths of [pubmed.py], tokenised as [ElementPath.xpath_tokenizer]
    does: [".//PubmedArticle"], [".//PMID"], [".//ArticleTitle"],
    [".//Abstract/AbstractText"], [".//Author"], ["LastName"], ["ForeName"]. *)
Definition path_PubmedArticle : list ET.step := [ET.Self; ET.Descendant "PubmedArticle"].
Definition path_PMID : list ET.step := [ET.Self; ET.Descendant "PMID"].
Definition path_ArticleTitle : list ET.step := [ET.Self; ET.Descendant "ArticleTitle"].
Definition path_AbstractText : list ET.step :=
  [ET.Self; ET.Descendant "Abstract"; ET.Child "AbstractText"].
Definition path_Author : list ET.step := [ET.Self; ET.Descendant "Author"].
Definition path_LastName : list ET.step := [ET.Child "LastName"].
Definition path_ForeName : list ET.step := [ET.Child "ForeName"].

(** ** Outcomes, effects and the world *)

(** The exceptions that the code can let escape. *)
Inductive exn : Type :=
| RequestException   (* raised by [requests.get]: no response was obtained *)
| JSONDecodeError    (* raised by [response.json()] *)
| AttributeError     (* [.get] on a value that is not a dict *)
| TypeError          (* [",".join] on a non-iterable or on a non-str item *)
| ParseError         (* raised by [ET.fromstring] *)
| OSError.           (* raised by [DataFrame.to_csv] *)

Inductive result (A : Type) : Type :=
| Returned (a : A)
| Raised (e : exn).
Arguments Returned {A} a.
Arguments Raised {A} e.

Record Response : Type := mkResponse {
  status_code : Z;
  text : string
}.

(** What an execution does to the outside, in the order in which it does it. *)
Inductive event : Type :=
| Get (url : string) (params : list (string * pyval))      (* [requests.get(url, params=params)] *)
| Echo (msg : string)                                      (* [typer.echo(msg)] *)
| ToCsv (file : string) (rows : list (gmap string pyval)). (* [df.to_csv(file, index=False)] *)

(** Everything the code calls and the repository does not define. *)
Record World : Type := mkWorld {
  (** the answer of the network to a GET request *)
  requests_get : string -> list (string * pyval) -> result Response;
  (** the JSON decoder behind [response.json()]; [None]: the body is not JSON *)
  json_loads : string -> option pyval;
  (** the XML parser behind [ET.fromstring]; [None]: the parser rejects the text *)
  ET_fromstring : string -> option ET.Element;
  (** [pd.DataFrame(papers).to_string()] *)
  df_to_string : list (gmap string pyval) -> string;
  (** does writing the file succeed *)
  df_to_csv : string -> list (gmap string pyval) -> result unit
}.

(** A computation takes the trace so far and returns an outcome and the
    extended trace.  An exception stops the computation; the trace is kept. *)
Definition M (A : Type) : Type := list event -> result A * list event.

Definition ret {A} (a : A) : M A := fun tr => (Returned a, tr).

Definition raise {A} (e : exn) : M A := fun tr => (Raised e, tr).

Definition bind {A B} (m : M A) (k : A -> M B) : M B :=
  fun tr =>
    match m tr with
    | (Returned a, tr') => k a tr'
    | (Raised e, tr') => (Raised e, tr')
    end.

Definition emit (ev : event) : M unit := fun tr => (Returned tt, tr ++ [ev]).

Definition lift {A} (r : result A) : M A := fun tr => (r, tr).

Notation "x <- m ;; k" := (bind m (fun x => k))
  (at level 100, m at next level, right associativity).
Notation "m ;;; k" := (bind m (fun _ => k))
  (at level 100, right associativity).

(** Running a computation from the empty trace. *)
Definition run {A} (m : M A) : result A * list event := m [].
Definition outcome {A} (m : M A) : result A := fst (run m).
Definition trace {A} (m : M A) : list event := snd (run m).

(** ** The operations of Python used by [fetch_papers] *)

Definition echo (msg : string) : M unit := emit (Echo msg).

(** [requests.get(url, params=params)] *)
Definition get (w : World) (url : string) (params : list (string * pyval)) : M Response :=
  emit (Get url params) ;;; lift (requests_get w url params).

(** [response.json()] *)
Definition Response_json (w : World) (r : Response) : M pyval :=
  match json_loads w (text r) with
  | Some v => ret v
  | None => raise JSONDecodeError
  end.

(** [v.get(key, default)]: only a dict has the method. *)
Definition py_get (v : pyval) (key : string) (default : pyval) : result pyval :=
  match v with
  | PyDict items =>
      match assoc key items with
      | Some x => Returned x
      | None => Returned default
      end
  | _ => Raised AttributeError
  end.

(** The items of an iterable as strings, when they all are strings. *)
Fixpoint all_str (l : list pyval) : option (list string) :=
  match l with
  | [] => Some []
  | PyStr s :: rest =>
      match all_str rest with
      | Some ss => Some (s :: ss)
      | None => None
      end
  | _ :: _ => None
  end.

(** [sep.join(v)]: [v] must be iterable (a str iterates over its characters,
    a dict over its keys) and every item must be a str. *)
Definition str_join (sep : string) (v : pyval) : result string :=
  match v with
  | PyStr s => Returned (String.concat sep (chars s))
  | PyList l =>
      match all_str l with
      | Some ss => Returned (String.concat sep ss)
      | None => Raised TypeError
      end
  | PyDict items => Returned (String.concat sep (List.map fst items))
  | _ => Raised TypeError
  end.

(** [ET.fromstring(text)] *)
Definition fromstring (w : World) (s : string) : M ET.Element :=
  match ET_fromstring w s with
  | Some root => ret root
  | None => raise ParseError
  end.

(** ** pubmed.py *)

Definition PUBMED_SEARCH_URL : string :=
  "https://eutils.ncbi.nlm.nih.gov/entrez/eutils/esearch.fcgi".
Definition PUBMED_FETCH_URL : string :=
  "https://eutils.ncbi.nlm.nih.gov/entrez/eutils/efetch.fcgi".

(** The body of [for author in article.findall(".//Author")], as a function
    of [authors_list] before the iteration. *)
Definition author_step (authors_list : list string) (author : ET.Element) : list string :=
  let lastname := ET.find author path_LastName in
  let forename := ET.find author path_ForeName in
  match lastname, forename with
  | Some lastname, Some forename =>
      authors_list ++ [py_format (ET.text forename) +:+ " " +:+ py_format (ET.text lastname)]
  | _, _ => authors_list
  end.

(** [authors_list] after the loop over the authors of an article. *)
Definition authors_list_of (article : ET.Element) : list string :=
  fold_left author_step (ET.findall article path_Author) [].

(** The value stored for a field read as
    [e.text if e is not None else "N/A"], for [e] the result of a [find]. *)
Definition text_or_NA (e : option ET.Element) : pyval :=
  match e with
  | Some e => py_opt_str (ET.text e)
  | None => PyStr "N/A"
  end.

(** The dict built by one iteration of
    [for article in root.findall(".//PubmedArticle")]. *)
Definition paper_of (article : ET.Element) : gmap string pyval :=
  let pmid := text_or_NA (ET.find article path_PMID) in
  let title := text_or_NA (ET.find article path_ArticleTitle) in
  let abstract_elem := ET.find article path_AbstractText in
  let abstract := text_or_NA abstract_elem in
  let authors_list := authors_list_of article in
  let authors :=
    match authors_list with
    | _ :: _ => String.concat ", " authors_list
    | [] => "N/A"
    end in
  <["PubmedID" := pmid]> (<["Title" := title]>
    (<["Authors" := PyStr authors]> (<["Abstract" := abstract]> ∅))).

(** The body of the loop, as a function of [papers] before the iteration:
    [papers.append({...})]. *)
Definition article_step (papers : list (gmap string pyval)) (article : ET.Element)
  : list (gmap string pyval) :=
  papers ++ [paper_of article].

(** Lines 46 to 71: [papers = []], the loop, [return papers]. *)
Definition extract (root : ET.Element) : list (gmap string pyval) :=
  fold_left article_step (ET.findall root path_PubmedArticle) [].

Definition search_params (query : string) : list (string * pyval) :=
  [("db", PyStr "pubmed"); ("term", PyStr query);
   ("retmode", PyStr "json"); ("retmax", PyInt 10)].

Definition details_params (joined : string) : list (string * pyval) :=
  [("db", PyStr "pubmed"); ("id", PyStr joined); ("retmode", PyStr "xml")].

(** [ids = data.get("esearchresult", {}).get("idlist", [])] *)
Definition get_ids (data : pyval) : result pyval :=
  match py_get data "esearchresult" (PyDict []) with
  | Returned esearchresult => py_get esearchresult "idlist" (PyList [])
  | Raised e => Raised e
  end.

Definition fetch_papers (w : World) (query : string) : M (list (gmap string pyval)) :=
  response <- get w PUBMED_SEARCH_URL (search_params query) ;;
  if negb (status_code response =? 200) then
    echo "Error: Failed to fetch data from PubMed." ;;;
    ret []
  else
    data <- Response_json w response ;;
    ids <- lift (get_ids data) ;;
    if negb (truthy ids) then
      echo "No papers found for the given query." ;;;
      ret []
    else
      joined <- lift (str_join "," ids) ;;
      details_response <- get w PUBMED_FETCH_URL (details_params joined) ;;
      if negb (status_code details_response =? 200) then
        echo "Error: Failed to fetch paper details." ;;;
        ret []
      else
        root <- fromstring w (text details_response) ;;
        ret (extract root).

(** ** cli.py *)

(** [str(n)] for a length. *)
Definition py_str_nat (n : nat) : string :=
  NilZero.string_of_uint (Nat.to_uint n).

(** [get_papers(query, file, debug)].  [if file:] holds for a non-empty
    string only. *)
Definition get_papers (w : World) (query : string) (file : option string) (debug : bool)
  : M unit :=
  papers <- fetch_papers w query ;;
  (if debug then
     echo ("Fetched " +:+ py_str_nat (List.length papers) +:+ " papers.")
   else ret tt) ;;;
  match papers with
  | [] =>
      echo "No papers found." ;;;
      ret tt
  | _ :: _ =>
      match file with
      | Some f =>
          if negb (String.eqb f "") then
            emit (ToCsv f papers) ;;;
            lift (df_to_csv w f papers) ;;;
            echo ("Saved results to " +:+ f +:+ ".")
          else echo (df_to_string w papers)
      | None => echo (df_to_string w papers)
      end
  end.

(** ** The executions of [fetch_papers] *)

(** Does an element carry the tag? *)
Definition has_tag (t : string) (e : ET.Element) : bool := String.eqb (ET.tag e) t.

(** The record-nodes. *)
Definition is_PubmedArticle : ET.Element -> bool := has_tag "PubmedArticle".



Section Executions.

Variable w : World.
Variable query : string.

Let g1 : event := Get PUBMED_SEARCH_URL (search_params query).
Let g2 (joined : string) : event := Get PUBMED_FETCH_URL (details_params joined).

(** The search step answered with status 200 and a JSON body from which
    line 26 reads [ids]. *)
Definition search_yields (ids : pyval) : Prop :=
  exists r data,
    requests_get w PUBMED_SEARCH_URL (search_params query) = Returned r /\
    status_code r = 200 /\
    json_loads w (text r) = Some data /\
    get_ids data = Returned ids.

(** The second request is sent, with the joined identifiers. *)
Definition fetch_sent (joined : string) : Prop :=
  exists ids,
    search_yields ids /\ truthy ids = true /\ str_join "," ids = Returned joined.

(** The second request is sent and answered. *)
Definition fetch_answers (joined : string) (r2 : Response) : Prop :=
  fetch_sent joined /\
  requests_get w PUBMED_FETCH_URL (details_params joined) = Returned r2.

(** The ten ways through [fetch_papers], with what each returns or raises
    and what it does on the way. *)
Inductive fetch_path : result (list (gmap string pyval)) -> list event -> Prop :=
| search_raises e :
    requests_get w PUBMED_SEARCH_URL (search_params query) = Raised e ->
    fetch_path (Raised e) [g1]
| search_status r :
    requests_get w PUBMED_SEARCH_URL (search_params query) = Returned r ->
    status_code r <> 200 ->
    fetch_path (Returned []) [g1; Echo "Error: Failed to fetch data from PubMed."]
| search_not_json r :
    requests_get w PUBMED_SEARCH_URL (search_params query) = Returned r ->
    status_code r = 200 ->
    json_loads w (text r) = None ->
    fetch_path (Raised JSONDecodeError) [g1]
| search_not_dict r data e :
    requests_get w PUBMED_SEARCH_URL (search_params query) = Returned r ->
    status_code r = 200 ->
    json_loads w (text r) = Some data ->
    get_ids data = Raised e ->
    fetch_path (Raised e) [g1]
| no_ids ids :
    search_yields ids ->
    truthy ids = false ->
    fetch_path (Returned []) [g1; Echo "No papers found for the given query."]
| join_raises ids e :
    search_yields ids ->
    truthy ids = true ->
    str_join "," ids = Raised e ->
    fetch_path (Raised e) [g1]
| fetch_raises joined e :
    fetch_sent joined ->
    requests_get w PUBMED_FETCH_URL (details_params joined) = Raised e ->
    fetch_path (Raised e) [g1; g2 joined]
| fetch_status joined r2 :
    fetch_answers joined r2 ->
    status_code r2 <> 200 ->
    fetch_path (Returned []) [g1; g2 joined; Echo "Error: Failed to fetch paper details."]
| parse_raises joined r2 :
    fetch_answers joined r2 ->
    status_code r2 = 200 ->
    ET_fromstring w (text r2) = None ->
    fetch_path (Raised ParseError) [g1; g2 joined]
| parsed joined r2 root :
    fetch_answers joined r2 ->
    status_code r2 = 200 ->
    ET_fromstring w (text r2) = Some root ->
    fetch_path (Returned (extract root)) [g1; g2 joined].

End Executions.

(** The second request is answered with status 200 and a text that parses
    to [root]. *)
Definition fetched (w : World) (query : string) (root : ET.Element) : Prop :=
  exists joined r2,
    fetch_answers w query joined r2 /\
    status_code r2 = 200 /\
    ET_fromstring w (text r2) = Some root.

(** Why an execution ends with the exception [e]. *)
Definition abnormal_cause (w : World) (query : string) (e : exn) : Prop :=
  requests_get w PUBMED_SEARCH_URL (search_params query) = Raised e
  \/ (exists r,
        requests_get w PUBMED_SEARCH_URL (search_params query) = Returned r /\
        status_code r = 200 /\ json_loads w (text r) = None /\
        e = JSONDecodeError)
  \/ (exists r data,
        requests_get w PUBMED_SEARCH_URL (search_params query) = Returned r /\
        status_code r = 200 /\ json_loads w (text r) = Some data /\
        get_ids data = Raised e /\ e = AttributeError)
  \/ (exists ids,
        search_yields w query ids /\ truthy ids = true /\
        str_join "," ids = Raised e /\ e = TypeError)
  \/ (exists joined,
        fetch_sent w query joined /\
        requests_get w PUBMED_FETCH_URL (details_params joined) = Raised e)
  \/ (exists joined r2,
        fetch_answers w query joined r2 /\ status_code r2 = 200 /\
        ET_fromstring w (text r2) = None /\ e = ParseError).

(** ** The words of the specification about one record-node *)



(** The first child of an element with a given tag. *)
Definition first_child (t : string) (e : ET.Element) : option ET.Element :=
  head (List.filter (has_tag t) (ET.children e)).

(** What one [Author] node contributes according to the specification: the
    pair when both sub-nodes are present, nothing otherwise. *)
Definition contribution (author : ET.Element) : list string :=
  match first_child "ForeName" author, first_child "LastName" author with
  | Some forename, Some lastname =>
      [py_format (ET.text forename) +:+ " " +:+ py_format (ET.text lastname)]
  | _, _ => []
  end.

(** The authors field according to the specification: the contributions of
    all [Author] nodes under the record-node, joined. *)
Definition authors_spec (article : ET.Element) : string :=
  match flat_map contribution (List.filter (has_tag "Author") (ET.below article)) with
  | [] => "N/A"
  | pairs => String.concat ", " pairs
  end.


(** The record-nodes of a document: the [PubmedArticle] elements below the
    root, in document order. *)
Definition record_nodes (root : ET.Element) : list ET.Element :=
  List.filter is_PubmedArticle (ET.below root).

(** ** Concrete documents and worlds *)

(** An element without attributes and without tail text. *)
Definition el (t : string) (tx : option string) (cs : list ET.Element) : ET.Element :=
  ET.mkElement t [] tx None cs.

(** The XML text of an element without attributes whose texts need no
    escaping: the text that [ET.fromstring] parses back to the element. *)
Fixpoint tostring (e : ET.Element) : string :=
  "<" +:+ ET.tag e +:+ ">"
    +:+ default "" (ET.text e)
    +:+ String.concat "" (List.map tostring (ET.children e))
    +:+ "</" +:+ ET.tag e +:+ ">"
    +:+ default "" (ET.tail e).

(** A JSON string literal, and the body and the decoded value of a search
    answer that carries the given identifiers. *)
Definition jstr (s : string) : string :=
  String "034"%char EmptyString +:+ s +:+ String "034"%char EmptyString.

Definition search_body (ids : list string) : string :=
  "{" +:+ jstr "esearchresult" +:+ ":{" +:+ jstr "idlist" +:+ ":["
      +:+ String.concat "," (List.map jstr ids) +:+ "]}}".

Definition search_json (ids : list string) : pyval :=
  PyDict [("esearchresult", PyDict [("idlist", PyList (List.map PyStr ids))])].

(** A decoder or parser given by its graph on the texts of one world. *)
Fixpoint table {A} (entries : list (string * A)) (s : string) : option A :=
  match entries with
  | [] => None
  | (s', a) :: rest => if String.eqb s' s then Some a else table rest s
  end.

(** A world whose network answers [search] on the search endpoint and
    [fetch] on the fetch endpoint. *)
Definition world (search fetch : result Response)
    (jsons : list (string * pyval)) (xmls : list (string * ET.Element)) : World :=
  {| requests_get url _ := if String.eqb url PUBMED_SEARCH_URL then search else fetch;
     json_loads := table jsons;
     ET_fromstring := table xmls;
     df_to_string _ := "";
     df_to_csv _ _ := Returned tt |}.

(** A world in which the search finds [ids] and the fetch endpoint answers
    with status 200 and the document [doc]. *)
Definition world_with (ids : list string) (doc : ET.Element) : World :=
  world (Returned (mkResponse 200 (search_body ids)))
        (Returned (mkResponse 200 (tostring doc)))
        [(search_body ids, search_json ids)]
        [(tostring doc, doc)].

(** One article with every field. *)
Definition article_12345 : ET.Element :=
  el "PubmedArticle" None
    [el "MedlineCitation" None
       [el "PMID" (Some "12345") [];
        el "Article" None
          [el "ArticleTitle" (Some "Example Study") [];
           el "Abstract" None [el "AbstractText" (Some "An example abstract.") []];
           el "AuthorList" None
             [el "Author" None
                [el "LastName" (Some "Smith") []; el "ForeName" (Some "Jane") []]]]]].

Definition doc_12345 : ET.Element := el "PubmedArticleSet" None [article_12345].

(** An article whose title starts with markup, so that the title element has
    no text of its own, and which has neither abstract nor authors:
    [<ArticleTitle><i>In vitro</i> study</ArticleTitle>]. *)
Definition article_markup_title : ET.Element :=
  el "PubmedArticle" None
    [el "MedlineCitation" None
       [el "PMID" (Some "7") [];
        el "Article" None
          [el "ArticleTitle" None
             [ET.mkElement "i" [] (Some "In vitro") (Some " study") []]]]].


(** Eleven identifiers and a document with one article for each. *)
Definition eleven_ids : list string :=
  ["1"; "2"; "3"; "4"; "5"; "6"; "7"; "8"; "9"; "10"; "11"].

Definition doc_eleven : ET.Element :=
  el "PubmedArticleSet" None
    (List.map (fun i => el "PubmedArticle" None [el "PMID" (Some i) []]) eleven_ids).

(** A document whose root element is the article itself. *)
Definition doc_root_article : ET.Element :=
  el "PubmedArticle" None [el "PMID" (Some "12345") []].

(** A document without articles. *)
Definition doc_empty_set : ET.Element := el "PubmedArticleSet" None [].

(** Three authors: both names, a last name only, both elements empty. *)
Definition author_both : ET.Element :=
  el "Author" None [el "LastName" (Some "Smith") []; el "ForeName" (Some "Jane") []].
Definition author_last_only : ET.Element :=
  el "Author" None [el "LastName" (Some "Doe") []].
Definition author_no_text : ET.Element :=
  el "Author" None [el "LastName" None []; el "ForeName" None []].

Definition article_authors : ET.Element :=
  el "PubmedArticle" None
    [el "PMID" (Some "1") [];
     el "AuthorList" None [author_both; author_last_only; author_no_text]].

Definition doc_authors : ET.Element := el "PubmedArticleSet" None [article_authors].

(** The search endpoint answers with status 500. *)
Definition world_search_500 : World :=
  world (Returned (mkResponse 500 "Internal Server Error")) (Raised RequestException) [] [].

(** The search succeeds, the fetch endpoint answers with status 502. *)
Definition world_fetch_502 : World :=
  world (Returned (mkResponse 200 (search_body ["12345"])))
        (Returned (mkResponse 502 "Bad Gateway"))
        [(search_body ["12345"], search_json ["12345"])] [].

(** The search finds nothing. *)
Definition world_no_ids : World :=
  world (Returned (mkResponse 200 (search_body [])))
        (Raised RequestException)
        [(search_body [], search_json [])] [].

(** The search endpoint answers with status 200 and a page that is not JSON. *)
Definition world_html : World :=
  world (Returned (mkResponse 200 "<html>Service unavailable</html>"))
        (Raised RequestException) [] [].

(** The fetch endpoint answers with status 200 and a truncated document. *)
Definition world_truncated : World :=
  world (Returned (mkResponse 200 (search_body ["12345"])))
        (Returned (mkResponse 200 "<PubmedArticleSet><PubmedArticle>"))
        [(search_body ["12345"], search_json ["12345"])] [].

(** ** Vocabulary for traces, files and authors *)

Definition is_Get (ev : event) : bool :=
  match ev with
  | Get _ _ => true
  | _ => false
  end.

Definition is_Echo (ev : event) : bool :=
  match ev with
  | Echo _ => true
  | _ => false
  end.

(** The test [if file:] of [get_papers]: a file name that is not empty. *)
Definition file_given (file : option string) : bool :=
  match file with
  | Some f => negb (String.eqb f "")
  | None => false
  end.

(** What [if debug: typer.echo(...)] prints. *)
Definition debug_events (debug : bool) (papers : list (gmap string pyval)) : list event :=
  if debug then
    [Echo ("Fetched " +:+ py_str_nat (List.length papers) +:+ " papers.")]
  else [].

(** An [Author] element with a [ForeName] child and a [LastName] child. *)
Definition qualifies (author : ET.Element) : bool :=
  match first_child "ForeName" author, first_child "LastName" author with
  | Some _, Some _ => true
  | _, _ => false
  end.

(** Does a string contain a space? *)
Fixpoint has_space (s : string) : bool :=
  match s with
  | EmptyString => false
  | String c s' => Ascii.eqb c " " || has_space s'
  end.

(** ** Further concrete documents and worlds *)

(** The search endpoint answers with status 200 and an error object:
    [{error: API rate limit exceeded}]. *)
Definition error_body : string :=
  "{" +:+ jstr "error" +:+ ":" +:+ jstr "API rate limit exceeded" +:+ "}".

Definition world_error_object : World :=
  world (Returned (mkResponse 200 error_body)) (Raised RequestException)
        [(error_body, PyDict [("error", PyStr "API rate limit exceeded")])] [].

(** The search endpoint answers with [{esearchresult: null}]. *)
Definition null_result_body : string := "{" +:+ jstr "esearchresult" +:+ ":null}".

Definition world_null_result : World :=
  world (Returned (mkResponse 200 null_result_body)) (Raised RequestException)
        [(null_result_body, PyDict [("esearchresult", PyNone)])] [].

(** The search endpoint answers with identifiers that are numbers:
    [{esearchresult: {idlist: [12345]}}]. *)
Definition numeric_ids_body : string :=
  "{" +:+ jstr "esearchresult" +:+ ":{" +:+ jstr "idlist" +:+ ":[12345]}}".

Definition world_numeric_ids : World :=
  world (Returned (mkResponse 200 numeric_ids_body)) (Raised RequestException)
        [(numeric_ids_body,
          PyDict [("esearchresult", PyDict [("idlist", PyList [PyInt 12345])])])] [].

(** An article whose citation has its own [PMID] and, later in the
    document, the [PMID] of a commented article. *)
Definition article_two_pmids : ET.Element :=
  el "PubmedArticle" None
    [el "MedlineCitation" None
       [el "PMID" (Some "111") [];
        el "Article" None [el "ArticleTitle" (Some "A reply") []];
        el "CommentsCorrectionsList" None
          [el "CommentsCorrections" None [el "PMID" (Some "222") []]]]].

(** An article with a structured abstract of two sections, after an
    [Abstract] element without text section. *)
Definition article_structured_abstract : ET.Element :=
  el "PubmedArticle" None
    [el "MedlineCitation" None
       [el "PMID" (Some "333") [];
        el "Article" None
          [el "Abstract" None [el "CopyrightInformation" (Some "2024") []];
           el "Abstract" None
             [el "AbstractText" (Some "Background text.") [];
              el "AbstractText" (Some "Methods text.") []]]]].

(** A world like [world_with] in which writing a file fails. *)
Definition world_read_only (ids : list string) (doc : ET.Element) : World :=
  {| requests_get := requests_get (world_with ids doc);
     json_loads := json_loads (world_with ids doc);
     ET_fromstring := ET_fromstring (world_with ids doc);
     df_to_string := df_to_string (world_with ids doc);
     df_to_csv _ _ := Raised OSError |}.

(** The search endpoint answers with an identifier "list" that is a single
    string with a character outside ASCII: [{esearchresult: {idlist: "é1"}}]. *)
Definition str_ids_body : string :=
  "{" +:+ jstr "esearchresult" +:+ ":{" +:+ jstr "idlist" +:+ ":" +:+ jstr "é1" +:+ "}}".

Definition world_str_ids : World :=
  world (Returned (mkResponse 200 str_ids_body))
        (Returned (mkResponse 502 "Bad Gateway"))
        [(str_ids_body, PyDict [("esearchresult", PyDict [("idlist", PyStr "é1")])])] [].

(** * Properties of the embedding *)

(** ** Elements *)

(** Induction on an element with the hypothesis for every child. *)
Lemma Element_ind' (P : ET.Element -> Prop)
  (step : forall t a tx tl cs, Forall P cs -> P (ET.mkElement t a tx tl cs)) :
  forall e, P e.
Proof.
  fix IH 1. intros [t a tx tl cs]. apply step.
  induction cs as [|c cs IHcs]; constructor; [apply IH | exact IHcs].
Qed.

Lemma has_tag_true t e : has_tag t e = true <-> ET.tag e = t.
Proof. unfold has_tag. apply String.eqb_eq. Qed.

Lemma filter_flat_map {A B} (p : B -> bool) (g : A -> list B) (l : list A) :
  List.filter p (flat_map g l) = flat_map (fun x => List.filter p (g x)) l.
Proof.
  induction l as [|x l IH]; simpl; [reflexivity|].
  rewrite List.filter_app, IH. reflexivity.
Qed.

Lemma flat_map_Forall_ext {A B} (f g : A -> list B) (l : list A) :
  Forall (fun x => f x = g x) l -> flat_map f l = flat_map g l.
Proof.
  induction 1 as [|x l Hx _ IH]; simpl; [reflexivity|].
  rewrite Hx, IH. reflexivity.
Qed.

(** [iter] visits the tree in document order and keeps the matching tags. *)
Lemma iter_preorder t e : ET.iter t e = List.filter (has_tag t) (ET.preorder e).
Proof.
  induction e as [tg a tx tl cs IH] using Element_ind'.
  unfold ET.iter, ET.preorder; fold (ET.iter t); fold ET.preorder.
  cbn [ET.tag ET.children List.filter].
  unfold has_tag at 1. cbn [ET.tag].
  rewrite filter_flat_map, (flat_map_Forall_ext _ _ _ IH).
  destruct (String.eqb tg t); reflexivity.
Qed.

(** Every element visited in a tree is at most as large as the tree. *)
Lemma preorder_size e x : In x (ET.preorder e) -> (ET.size x <= ET.size e)%nat.
Proof.
  revert x. induction e as [tg a tx tl cs IH] using Element_ind'.
  intros x [<-|Hx]; [lia|].
  cbn [ET.children] in Hx. apply in_flat_map in Hx as (c & Hc & Hx).
  rewrite List.Forall_forall in IH. specialize (IH c Hc x Hx).
  cbn [ET.size ET.children].
  assert (ET.size c <= list_sum (List.map ET.size cs))%nat; [|lia].
  clear -Hc. induction cs as [|d cs IHcs]; [destruct Hc|].
  destruct Hc as [->|Hc]; simpl; [lia|]. specialize (IHcs Hc). lia.
Qed.

(** An element is not among the elements below it: the identity test of
    the descendant selector discards the element itself and nothing else. *)
Lemma below_not_self e : ~ In e (ET.below e).
Proof.
  intros H. unfold ET.below in H. apply in_flat_map in H as (c & Hc & Hx).
  apply preorder_size in Hx.
  assert (ET.size c < ET.size e)%nat; [|lia].
  destruct e as [tg a tx tl cs]. cbn [ET.size ET.children] in *.
  clear -Hc. induction cs as [|d cs IHcs]; [destruct Hc|].
  destruct Hc as [->|Hc]; simpl; [lia|]. specialize (IHcs Hc). lia.
Qed.

(** [elem.findall(".//t")]: the elements below [elem] with tag [t], in
    document order. *)
Lemma findall_descendant e t :
  ET.findall e [ET.Self; ET.Descendant t] = List.filter (has_tag t) (ET.below e).
Proof.
  unfold ET.findall, ET.iterfind, ET.select, ET.below. simpl.
  rewrite app_nil_r, filter_flat_map.
  apply flat_map_Forall_ext, List.Forall_forall. intros c _. apply iter_preorder.
Qed.

(** [elem.find(t)]: the first child with tag [t]. *)
Lemma find_child e t :
  ET.find e [ET.Child t] = head (List.filter (has_tag t) (ET.children e)).
Proof.
  unfold ET.find, ET.iterfind, ET.select. simpl. rewrite app_nil_r. reflexivity.
Qed.

Lemma head_filter_None {A} (p : A -> bool) (l : list A) :
  head (List.filter p l) = None <-> forall x, In x l -> p x = false.
Proof.
  induction l as [|a l IH]; simpl.
  - split; [intros _ x []|reflexivity].
  - destruct (p a) eqn:Ha; simpl.
    + split; [discriminate|]. intros H. specialize (H a (or_introl eq_refl)). congruence.
    + rewrite IH. split.
      * intros H x [<-|Hx]; auto.
      * intros H x Hx. apply H. right. exact Hx.
Qed.

Lemma head_filter_Some {A} (p : A -> bool) (l : list A) (x : A) :
  head (List.filter p l) = Some x -> In x l /\ p x = true.
Proof.
  intros H. apply filter_In.
  destruct (List.filter p l) as [|y f]; [discriminate|].
  injection H as ->. left. reflexivity.
Qed.

(** ** Loops that append *)

Lemma fold_left_append {A B} (f : A -> B) (l : list A) (acc : list B) :
  fold_left (fun acc x => acc ++ [f x]) l acc = acc ++ List.map f l.
Proof.
  revert acc. induction l as [|x l IH]; intros acc; simpl.
  - rewrite app_nil_r. reflexivity.
  - rewrite IH, <- app_assoc. reflexivity.
Qed.

(** The records are the dicts of the [PubmedArticle] elements below the
    root, in document order. *)
Lemma extract_map root :
  extract root = List.map paper_of (List.filter is_PubmedArticle (ET.below root)).
Proof.
  unfold extract, path_PubmedArticle. rewrite findall_descendant.
  unfold article_step. rewrite (fold_left_append paper_of). reflexivity.
Qed.

(** ** The executions of [fetch_papers] *)

Ltac unfold_run :=
  unfold outcome, trace, run, fetch_papers, bind, get, echo, emit, lift, ret,
    raise, Response_json, fromstring; simpl.

Ltac destruct_hyps :=
  repeat match goal with
         | H : _ /\ _ |- _ => destruct H
         | H : ex _ |- _ => destruct H
         end.

(** Every execution takes one of the ten ways. *)
Lemma fetch_papers_path w query :
  fetch_path w query (outcome (fetch_papers w query)) (trace (fetch_papers w query)).
Proof.
  unfold_run.
  destruct (requests_get w PUBMED_SEARCH_URL (search_params query)) as [r|e] eqn:Hget;
    simpl; [|now apply search_raises].
  destruct (status_code r =? 200) eqn:Hst; simpl;
    [apply Z.eqb_eq in Hst | apply Z.eqb_neq in Hst; now apply (search_status _ _ r)].
  destruct (json_loads w (text r)) as [data|] eqn:Hjson; simpl;
    [|now apply (search_not_json _ _ r)].
  destruct (get_ids data) as [ids|e] eqn:Hids; simpl;
    [|now apply (search_not_dict _ _ r data)].
  assert (Hy : search_yields w query ids) by (exists r, data; auto).
  destruct (truthy ids) eqn:Htr; simpl; [|now apply (no_ids _ _ ids)].
  destruct (str_join "," ids) as [joined|e] eqn:Hjoin; simpl;
    [|now apply (join_raises _ _ ids)].
  assert (Hsent : fetch_sent w query joined) by (exists ids; auto).
  destruct (requests_get w PUBMED_FETCH_URL (details_params joined)) as [r2|e] eqn:Hget2;
    simpl; [|now apply fetch_raises].
  assert (Hans : fetch_answers w query joined r2) by (split; auto).
  destruct (status_code r2 =? 200) eqn:Hst2; simpl;
    [apply Z.eqb_eq in Hst2 | apply Z.eqb_neq in Hst2; now apply (fetch_status _ _ joined r2)].
  destruct (ET_fromstring w (text r2)) as [root|] eqn:Hparse; simpl.
  - now apply (parsed _ _ joined r2).
  - now apply (parse_raises _ _ joined r2).
Qed.

(** What [search_yields] and [fetch_answers] say determines the values. *)
Lemma search_yields_fun w query ids ids' :
  search_yields w query ids -> search_yields w query ids' -> ids = ids'.
Proof.
  intros (r & d & H1 & _ & H2 & H3) (r' & d' & H1' & _ & H2' & H3').
  congruence.
Qed.

Lemma fetch_sent_fun w query joined joined' :
  fetch_sent w query joined -> fetch_sent w query joined' -> joined = joined'.
Proof.
  intros (ids & Hy & _ & Hj) (ids' & Hy' & _ & Hj').
  rewrite (search_yields_fun _ _ _ _ Hy Hy') in Hj. congruence.
Qed.

Lemma fetch_answers_fun w query joined joined' r2 r2' :
  fetch_answers w query joined r2 -> fetch_answers w query joined' r2' ->
  joined = joined' /\ r2 = r2'.
Proof.
  intros [Hs H] [Hs' H'].
  pose proof (fetch_sent_fun _ _ _ _ Hs Hs') as ->. split; congruence.
Qed.

(** The run when the second request is answered with status 200. *)
Lemma run_fetch_answered w query joined r2 :
  fetch_answers w query joined r2 ->
  status_code r2 = 200 ->
  run (fetch_papers w query) =
    (match ET_fromstring w (text r2) with
     | Some root => Returned (extract root)
     | None => Raised ParseError
     end,
     [Get PUBMED_SEARCH_URL (search_params query);
      Get PUBMED_FETCH_URL (details_params joined)]).
Proof.
  intros [(ids & (r & data & H1 & H2 & H3 & H4) & Htr & Hj) Hget] Hst.
  unfold_run. rewrite H1; simpl. rewrite H2; simpl. rewrite H3; simpl.
  rewrite H4; simpl. rewrite Htr; simpl. rewrite Hj; simpl. rewrite Hget; simpl.
  rewrite Hst; simpl. destruct (ET_fromstring w (text r2)); reflexivity.
Qed.

(** ** The scenario of the specification *)

(** One article with identifier 12345, title, one author and abstract gives
    one record with these four values, after the two requests. *)
Example scenario_one_article :
  run (fetch_papers (world_with ["12345"] doc_12345) "cancer")
  = (Returned
       [ <["PubmedID" := PyStr "12345"]>
           (<["Title" := PyStr "Example Study"]>
              (<["Authors" := PyStr "Jane Smith"]>
                 (<["Abstract" := PyStr "An example abstract."]> ∅))) ],
     [Get PUBMED_SEARCH_URL
        [("db", PyStr "pubmed"); ("term", PyStr "cancer");
         ("retmode", PyStr "json"); ("retmax", PyInt 10)];
      Get PUBMED_FETCH_URL
        [("db", PyStr "pubmed"); ("id", PyStr "12345"); ("retmode", PyStr "xml")]]).
Proof. vm_compute. reflexivity. Qed.

(** The same document with the article as root element has no record-node
    below the root. *)
Example scenario_root_article :
  outcome (fetch_papers (world_with ["12345"] doc_root_article) "cancer") = Returned [].
Proof. vm_compute. reflexivity. Qed.

(** Values other than lists where the identifiers are expected. *)
Example ids_string_is_joined_by_character :
  str_join "," (PyStr "123") = Returned "1,2,3".
Proof. reflexivity. Qed.

Example ids_numbers_raise :
  str_join "," (PyList [PyInt 12345]) = Raised TypeError.
Proof. reflexivity. Qed.

Example decoded_list_raises : get_ids (PyList []) = Raised AttributeError.
Proof. reflexivity. Qed.

Example missing_keys_default : get_ids (PyDict []) = Returned (PyList []).
Proof. reflexivity. Qed.

(** ** Transport failures and empty searches *)

(** C3: when a request sent by [fetch_papers], to the search endpoint or to
    the fetch endpoint, is answered with a status other than 200 (in
    particular with any non-success status), [fetch_papers] returns the empty
    list. *)
Theorem non_success_status_returns_empty w query url params r :
  In (Get url params) (trace (fetch_papers w query)) ->
  requests_get w url params = Returned r ->
  status_code r <> 200 ->
  outcome (fetch_papers w query) = Returned [].
Proof.
  intros Hin Hget Hst. revert Hin.
  destruct (fetch_papers_path w query); try reflexivity; intros Hin; exfalso;
    unfold fetch_answers, fetch_sent, search_yields in *; destruct_hyps;
    simpl in Hin; repeat (destruct Hin as [Hin|Hin]; [injection Hin as <- <-|]);
    try contradiction; congruence.
Qed.

Lemma non_success_status_returns_empty_witness :
  outcome (fetch_papers world_search_500 "cancer") = Returned [] /\
  outcome (fetch_papers world_fetch_502 "cancer") = Returned [].
Proof.
  split.
  - apply (non_success_status_returns_empty world_search_500 "cancer"
             PUBMED_SEARCH_URL (search_params "cancer") (mkResponse 500 "Internal Server Error")).
    + vm_compute. left. reflexivity.
    + reflexivity.
    + vm_compute. discriminate.
  - apply (non_success_status_returns_empty world_fetch_502 "cancer"
             PUBMED_FETCH_URL (details_params "12345") (mkResponse 502 "Bad Gateway")).
    + vm_compute. right. left. reflexivity.
    + reflexivity.
    + vm_compute. discriminate.
Defined.

(** C4: when the search answer yields the empty identifier list,
    [fetch_papers] returns the empty list, and all it does is the search
    request and one message: no request is sent to the fetch endpoint. *)
Theorem empty_idlist_returns_empty_without_fetch w query :
  search_yields w query (PyList []) ->
  run (fetch_papers w query) =
    (Returned [],
     [Get PUBMED_SEARCH_URL (search_params query);
      Echo "No papers found for the given query."]) /\
  forall params, ~ In (Get PUBMED_FETCH_URL params) (trace (fetch_papers w query)).
Proof.
  intros (r & data & H1 & H2 & H3 & H4).
  assert (Hrun : run (fetch_papers w query) =
    (Returned [],
     [Get PUBMED_SEARCH_URL (search_params query);
      Echo "No papers found for the given query."])).
  { unfold_run. rewrite H1; simpl. rewrite H2; simpl. rewrite H3; simpl.
    rewrite H4; simpl. reflexivity. }
  split; [exact Hrun|].
  intros params Hin. unfold trace in Hin. rewrite Hrun in Hin. simpl in Hin.
  destruct Hin as [Hin|[Hin|[]]]; discriminate.
Qed.

Lemma empty_idlist_returns_empty_without_fetch_witness :
  search_yields world_no_ids "no such paper" (PyList []) /\
  outcome (fetch_papers world_no_ids "no such paper") = Returned [].
Proof.
  assert (H : search_yields world_no_ids "no such paper" (PyList [])).
  { exists (mkResponse 200 (search_body [])), (search_json []).
    repeat split; vm_compute; reflexivity. }
  split; [exact H|].
  pose proof (empty_idlist_returns_empty_without_fetch world_no_ids "no such paper" H)
    as [Hrun _].
  unfold outcome. rewrite Hrun. reflexivity.
Defined.

Lemma fetched_run w query root :
  fetched w query root ->
  exists joined,
    run (fetch_papers w query) =
      (Returned (extract root),
       [Get PUBMED_SEARCH_URL (search_params query);
        Get PUBMED_FETCH_URL (details_params joined)]).
Proof.
  intros (joined & r2 & Hans & Hst & Hparse). exists joined.
  rewrite (run_fetch_answered _ _ _ _ Hans Hst), Hparse. reflexivity.
Qed.

Lemma fetched_outcome w query root :
  fetched w query root -> outcome (fetch_papers w query) = Returned (extract root).
Proof.
  intros H. destruct (fetched_run _ _ _ H) as [joined Hrun].
  unfold outcome. rewrite Hrun. reflexivity.
Qed.

(** A returned list is empty or extracted from the parsed fetch response. *)
Lemma returned_cases w query papers :
  outcome (fetch_papers w query) = Returned papers ->
  papers = [] \/ exists root, fetched w query root /\ papers = extract root.
Proof.
  destruct (fetch_papers_path w query); intros Hout; try discriminate;
    injection Hout as <-; auto.
  right. exists root. split; [|reflexivity]. exists joined, r2. auto.
Qed.

Lemma world_with_answers ids doc query :
  ids <> [] ->
  fetch_answers (world_with ids doc) query
    (String.concat "," ids) (mkResponse 200 (tostring doc)).
Proof.
  intros Hne.
  assert (Hall : forall l, all_str (List.map PyStr l) = Some l).
  { induction l as [|x l IH]; simpl; [reflexivity|]. rewrite IH. reflexivity. }
  split; [|reflexivity].
  exists (PyList (List.map PyStr ids)). split; [|split].
  - exists (mkResponse 200 (search_body ids)), (search_json ids).
    split; [reflexivity|]. split; [reflexivity|]. split; [|reflexivity].
    simpl. rewrite String.eqb_refl. reflexivity.
  - destruct ids; [contradiction|reflexivity].
  - simpl. rewrite Hall. reflexivity.
Qed.

Lemma world_with_fetched ids doc :
  ids <> [] ->
  fetched (world_with ids doc) "cancer" doc.
Proof.
  intros Hne.
  exists (String.concat "," ids), (mkResponse 200 (tostring doc)).
  split; [apply world_with_answers, Hne|]. split; [reflexivity|].
  simpl. rewrite String.eqb_refl. reflexivity.
Qed.

(** ** Number and order of the records *)

(** C5, as stated, fails: the root element of the fetch response is not
    searched.  The document [<PubmedArticle><PMID>12345</PMID></PubmedArticle>]
    contains one [PubmedArticle] node and [fetch_papers] returns no record. *)
Lemma records_of_all_nodes_counterexample :
  ~ (forall w query root,
        fetched w query root ->
        exists papers,
          outcome (fetch_papers w query) = Returned papers /\
          List.length papers
          = List.length (List.filter is_PubmedArticle (ET.preorder root))).
Proof.
  intros H.
  destruct (H (world_with ["12345"] doc_root_article) "cancer" doc_root_article)
    as (papers & Hout & Hlen).
  - apply world_with_fetched. discriminate.
  - vm_compute in Hout. injection Hout as <-. vm_compute in Hlen. discriminate.
Qed.

(** C5, amended: when the fetch response parses to [root], [fetch_papers]
    returns one record for each [PubmedArticle] element strictly below
    [root], at any depth, in document order: the i-th record is the dict of
    the i-th such element.  Nothing is removed and nothing is reordered. *)
Theorem records_in_document_order w query root :
  fetched w query root ->
  outcome (fetch_papers w query)
  = Returned (List.map paper_of (List.filter is_PubmedArticle (ET.below root))) /\
  (forall papers,
      outcome (fetch_papers w query) = Returned papers ->
      List.length papers
      = List.length (List.filter is_PubmedArticle (ET.below root))).
Proof.
  intros H. rewrite (fetched_outcome _ _ _ H), extract_map. split; [reflexivity|].
  intros papers Hp. injection Hp as <-. apply length_map.
Qed.

Lemma records_in_document_order_witness :
  fetched (world_with eleven_ids doc_eleven) "cancer" doc_eleven /\
  outcome (fetch_papers (world_with eleven_ids doc_eleven) "cancer")
  = Returned (List.map paper_of (List.filter is_PubmedArticle (ET.below doc_eleven))).
Proof.
  assert (H : fetched (world_with eleven_ids doc_eleven) "cancer" doc_eleven)
    by (apply world_with_fetched; discriminate).
  split; [exact H|].
  exact (proj1 (records_in_document_order _ _ _ H)).
Defined.

(** C2, as stated, fails: the bound of ten is a parameter of the search
    request and is not applied to what comes back.  When the fetch response
    holds eleven articles, eleven records are returned. *)
Lemma at_most_ten_counterexample :
  ~ (forall w query papers,
        outcome (fetch_papers w query) = Returned papers ->
        (List.length papers <= 10)%nat).
Proof.
  intros H.
  specialize (H (world_with eleven_ids doc_eleven) "cancer" (extract doc_eleven)).
  assert (Hout : outcome (fetch_papers (world_with eleven_ids doc_eleven) "cancer")
                 = Returned (extract doc_eleven))
    by (apply fetched_outcome, world_with_fetched; discriminate).
  specialize (H Hout). vm_compute in H. lia.
Qed.

(** C2, amended: the list returned by [fetch_papers] is finite.  The search
    request always asks for at most ten identifiers ([retmax] is 10), and
    nothing is cut from what comes back: the list is empty or has exactly
    one record for each [PubmedArticle] element below the root of the parsed
    fetch response.  So the list has at most ten records whenever the two
    endpoints keep their side: the identifiers of the search answer are a
    list of at most ten items, and the fetch response holds at most one
    [PubmedArticle] element for each of them. *)
Theorem at_most_ten_when_response_has w query :
  (head (trace (fetch_papers w query))
   = Some (Get PUBMED_SEARCH_URL (search_params query)) /\
   assoc "retmax" (search_params query) = Some (PyInt 10)) /\
  (forall papers,
      outcome (fetch_papers w query) = Returned papers ->
      papers = [] \/
      exists root,
        fetched w query root /\
        List.length papers = List.length (record_nodes root)) /\
  (forall papers,
      outcome (fetch_papers w query) = Returned papers ->
      (forall ids, search_yields w query ids ->
                   exists l, ids = PyList l /\ (List.length l <= 10)%nat) ->
      (forall l root,
          search_yields w query (PyList l) -> fetched w query root ->
          (List.length (record_nodes root) <= List.length l)%nat) ->
      (List.length papers <= 10)%nat).
Proof.
  assert (Hcases : forall papers,
             outcome (fetch_papers w query) = Returned papers ->
             papers = [] \/
             exists root,
               fetched w query root /\
               List.length papers = List.length (record_nodes root)).
  { intros papers Hout.
    destruct (returned_cases _ _ _ Hout) as [->|(root & Hf & ->)]; [left; reflexivity|].
    right. exists root. split; [exact Hf|].
    rewrite extract_map. apply length_map. }
  split; [|split; [exact Hcases|]].
  - split; [|reflexivity]. destruct (fetch_papers_path w query); reflexivity.
  - intros papers Hout Hsearch Hfetch.
    destruct (Hcases papers Hout) as [->|(root & Hf & ->)]; [simpl; lia|].
    destruct Hf as (joined & r2 & [(ids & Hy & Hrest) Hget] & Hst & Hparse).
    destruct (Hsearch ids Hy) as (l & -> & Hl).
    assert (Hf : fetched w query root).
    { exists joined, r2. split; [split; [exists (PyList l); auto|exact Hget]|auto]. }
    specialize (Hfetch l root Hy Hf). lia.
Qed.

Lemma at_most_ten_when_response_has_witness :
  (List.length (extract doc_12345) <= 10)%nat.
Proof.
  assert (Hne : ["12345"] <> @nil string) by discriminate.
  pose proof (world_with_answers ["12345"] doc_12345 "cancer" Hne) as [(i0 & Hy0 & _) _].
  pose proof (world_with_fetched ["12345"] doc_12345 Hne) as Hf0.
  refine (proj2 (proj2 (at_most_ten_when_response_has
                          (world_with ["12345"] doc_12345) "cancer"))
            (extract doc_12345) _ _ _).
  - apply fetched_outcome, Hf0.
  - intros ids Hy. pose proof (search_yields_fun _ _ _ _ Hy Hy0) as ->.
    destruct Hy0 as (r & data & Hget & _ & Hjson & Hids).
    vm_compute in Hget. injection Hget as <-.
    vm_compute in Hjson. injection Hjson as <-.
    vm_compute in Hids. injection Hids as <-.
    exists [PyStr "12345"]. split; [reflexivity|simpl; lia].
  - intros l root Hy Hf.
    destruct Hf as (j & r & Ha & _ & Hp), Hf0 as (j' & r' & Ha' & _ & Hp').
    destruct (fetch_answers_fun _ _ _ _ _ _ Ha Ha') as [-> ->].
    rewrite Hp in Hp'. injection Hp' as ->.
    pose proof (search_yields_fun _ _ _ _ Hy Hy0) as <-.
    destruct Hy as (r0 & data & Hget & _ & Hjson & Hids).
    vm_compute in Hget. injection Hget as <-.
    vm_compute in Hjson. injection Hjson as <-.
    vm_compute in Hids. injection Hids as <-.
    vm_compute. lia.
Defined.

(** ** The fields of a record *)

Lemma find_descendant e t :
  ET.find e [ET.Self; ET.Descendant t] = head (List.filter (has_tag t) (ET.below e)).
Proof. unfold ET.find. fold (ET.findall e [ET.Self; ET.Descendant t]).
       rewrite findall_descendant. reflexivity. Qed.


(** [elem.findall(".//a/c")]: the children with tag [c] of the elements
    below [elem] with tag [a]. *)
Lemma findall_descendant_child e a c :
  ET.findall e [ET.Self; ET.Descendant a; ET.Child c]
  = flat_map (fun x => List.filter (has_tag c) (ET.children x))
             (List.filter (has_tag a) (ET.below e)).
Proof.
  pose proof (findall_descendant e a) as H.
  unfold ET.findall, ET.iterfind in *. simpl in *. rewrite H. reflexivity.
Qed.


Lemma paper_of_lookup article :
  paper_of article !! "PubmedID" = Some (text_or_NA (ET.find article path_PMID)) /\
  paper_of article !! "Title" = Some (text_or_NA (ET.find article path_ArticleTitle)) /\
  paper_of article !! "Abstract" = Some (text_or_NA (ET.find article path_AbstractText)) /\
  paper_of article !! "Authors"
  = Some (PyStr match authors_list_of article with
                | _ :: _ => String.concat ", " (authors_list_of article)
                | [] => "N/A"
                end).
Proof.
  unfold paper_of. cbv zeta.
  repeat split; repeat (rewrite lookup_insert_eq || (rewrite lookup_insert_ne by discriminate));
    reflexivity.
Qed.






(** ** Authors *)

Lemma first_child_None t e :
  (forall c, In c (ET.children e) -> ET.tag c <> t) -> first_child t e = None.
Proof.
  intros H. apply head_filter_None. intros c Hc.
  destruct (has_tag t c) eqn:E; [|reflexivity].
  apply has_tag_true in E. exfalso. exact (H c Hc E).
Qed.

Lemma first_child_Some t e :
  (exists c, In c (ET.children e) /\ ET.tag c = t) ->
  exists c, first_child t e = Some c /\ In c (ET.children e) /\ ET.tag c = t.
Proof.
  intros (c & Hc & Ht). unfold first_child.
  destruct (head (List.filter (has_tag t) (ET.children e))) as [d|] eqn:E.
  - exists d. apply head_filter_Some in E as [Hd Hd'].
    apply has_tag_true in Hd'. auto.
  - exfalso. pose proof (proj1 (head_filter_None _ _) E c Hc) as Hf.
    apply has_tag_true in Ht. congruence.
Qed.

(** One iteration of the loop over the authors appends the contribution. *)
Lemma author_step_contribution authors_list author :
  author_step authors_list author = authors_list ++ contribution author.
Proof.
  unfold author_step, contribution, path_LastName, path_ForeName.
  rewrite !find_child. fold (first_child "LastName" author).
  fold (first_child "ForeName" author).
  destruct (first_child "LastName" author), (first_child "ForeName" author);
    rewrite ?app_nil_r; reflexivity.
Qed.

Lemma fold_author_step l acc :
  fold_left author_step l acc = acc ++ flat_map contribution l.
Proof.
  revert acc. induction l as [|a l IH]; intros acc; simpl.
  - rewrite app_nil_r. reflexivity.
  - rewrite IH, author_step_contribution, <- app_assoc. reflexivity.
Qed.

Lemma authors_list_of_contributions article :
  authors_list_of article
  = flat_map contribution (List.filter (has_tag "Author") (ET.below article)).
Proof.
  unfold authors_list_of, path_Author.
  rewrite findall_descendant, fold_author_step. reflexivity.
Qed.

(** C6: the loop of lines 55 to 62 visits every [Author] element below the
    record-node, in document order; an element without [ForeName] child (or
    without [LastName] child) contributes nothing; an element with both
    contributes the fore name, a space and the last name; the authors field
    is the contributions joined with ", ", or "N/A" when there is none. *)
Theorem authors_field article :
  authors_list_of article
  = flat_map contribution (List.filter (has_tag "Author") (ET.below article)) /\
  paper_of article !! "Authors" = Some (PyStr (authors_spec article)) /\
  (authors_list_of article = [] -> paper_of article !! "Authors" = Some (PyStr "N/A")) /\
  (authors_list_of article <> [] ->
   paper_of article !! "Authors"
   = Some (PyStr (String.concat ", " (authors_list_of article)))) /\
  (forall author,
      (forall c, In c (ET.children author) -> ET.tag c <> "ForeName") ->
      contribution author = []) /\
  (forall author,
      (forall c, In c (ET.children author) -> ET.tag c <> "LastName") ->
      contribution author = []) /\
  (forall author forename lastname,
      first_child "ForeName" author = Some forename ->
      first_child "LastName" author = Some lastname ->
      contribution author
      = [py_format (ET.text forename) +:+ " " +:+ py_format (ET.text lastname)]).
Proof.
  destruct (paper_of_lookup article) as (_ & _ & _ & Hauth).
  split; [apply authors_list_of_contributions|].
  split; [|split; [|split; [|split; [|split]]]].
  - rewrite Hauth. unfold authors_spec.
    rewrite <- authors_list_of_contributions.
    destruct (authors_list_of article); reflexivity.
  - intros E. rewrite Hauth, E. reflexivity.
  - intros E. rewrite Hauth. destruct (authors_list_of article); [contradiction|reflexivity].
  - intros author H. unfold contribution. rewrite (first_child_None _ _ H). reflexivity.
  - intros author H. unfold contribution. rewrite (first_child_None _ _ H).
    destruct (first_child "ForeName" author); reflexivity.
  - intros author f l Hf Hl. unfold contribution. rewrite Hf, Hl. reflexivity.
Qed.

Lemma authors_field_witness :
  paper_of article_authors !! "Authors" = Some (PyStr "Jane Smith, None None") /\
  contribution author_last_only = [] /\
  contribution author_both = ["Jane Smith"].
Proof.
  destruct (authors_field article_authors) as (_ & H & _ & _ & Hno & _ & Hboth).
  split; [exact H|]. split.
  - apply Hno. intros c [<-|[]]. discriminate.
  - apply (Hboth author_both (el "ForeName" (Some "Jane") []) (el "LastName" (Some "Smith") []));
      reflexivity.
Defined.

(** C10: the test of line 59 is on the presence of the two child elements.
    An [Author] element below the record-node that has a [LastName] child and
    a [ForeName] child contributes a pair whatever their texts are: the pair
    is made of the formatted [text] values of the first such children,
    ["None"] for an element without text, and the authors field is the joined
    list, not the default. *)
Theorem author_pair_from_presence article author :
  In author (List.filter (has_tag "Author") (ET.below article)) ->
  (exists c, In c (ET.children author) /\ ET.tag c = "LastName") ->
  (exists c, In c (ET.children author) /\ ET.tag c = "ForeName") ->
  exists forename lastname,
    first_child "ForeName" author = Some forename /\
    first_child "LastName" author = Some lastname /\
    In (py_format (ET.text forename) +:+ " " +:+ py_format (ET.text lastname))
       (authors_list_of article) /\
    paper_of article !! "Authors"
    = Some (PyStr (String.concat ", " (authors_list_of article))) /\
    (ET.text forename = None -> ET.text lastname = None ->
     In "None None" (authors_list_of article)).
Proof.
  intros Hin Hl Hf.
  apply first_child_Some in Hl as (l & Hl & _), Hf as (f & Hf & _).
  exists f, l. split; [exact Hf|]. split; [exact Hl|].
  assert (Hpair : In (py_format (ET.text f) +:+ " " +:+ py_format (ET.text l))
                     (authors_list_of article)).
  { rewrite authors_list_of_contributions. apply in_flat_map.
    exists author. split; [exact Hin|].
    unfold contribution. rewrite Hf, Hl. left. reflexivity. }
  split; [exact Hpair|]. split.
  - destruct (paper_of_lookup article) as (_ & _ & _ & ->).
    destruct (authors_list_of article); [destruct Hpair|reflexivity].
  - intros Ef El. rewrite Ef, El in Hpair. exact Hpair.
Qed.

Lemma author_pair_from_presence_witness :
  exists forename lastname,
    first_child "ForeName" author_no_text = Some forename /\
    first_child "LastName" author_no_text = Some lastname /\
    In (py_format (ET.text forename) +:+ " " +:+ py_format (ET.text lastname))
       (authors_list_of article_authors) /\
    paper_of article_authors !! "Authors"
    = Some (PyStr (String.concat ", " (authors_list_of article_authors))) /\
    (ET.text forename = None -> ET.text lastname = None ->
     In "None None" (authors_list_of article_authors)).
Proof.
  apply (author_pair_from_presence article_authors author_no_text).
  - vm_compute. right. right. left. reflexivity.
  - exists (el "LastName" None []). split; [left; reflexivity|reflexivity].
  - exists (el "ForeName" None []). split; [right; left; reflexivity|reflexivity].
Defined.

(** ** Extraction depends on the document only *)

(** C7: two executions whose fetch step is answered with status 200 and the
    same document text, parsed by the same parser, end alike and return the
    same records, whatever the query, the search answer and the rest of the
    world are.  In particular, parsing and extracting one document twice
    gives the same list of records. *)
Theorem extraction_deterministic w1 w2 query1 query2 joined1 joined2 r1 r2 :
  fetch_answers w1 query1 joined1 r1 -> status_code r1 = 200 ->
  fetch_answers w2 query2 joined2 r2 -> status_code r2 = 200 ->
  text r1 = text r2 ->
  (forall s, ET_fromstring w1 s = ET_fromstring w2 s) ->
  outcome (fetch_papers w1 query1) = outcome (fetch_papers w2 query2).
Proof.
  intros H1 S1 H2 S2 Htext Hparser. unfold outcome.
  rewrite (run_fetch_answered _ _ _ _ H1 S1), (run_fetch_answered _ _ _ _ H2 S2).
  rewrite Htext, Hparser. reflexivity.
Qed.

Lemma extraction_deterministic_witness :
  outcome (fetch_papers (world_with ["12345"] doc_12345) "cancer")
  = outcome (fetch_papers (world_with ["12345"; "7"] doc_12345) "example study").
Proof.
  apply (extraction_deterministic _ _ _ _
           "12345" "12345,7"
           (mkResponse 200 (tostring doc_12345)) (mkResponse 200 (tostring doc_12345))).
  - apply (world_with_answers ["12345"]). discriminate.
  - reflexivity.
  - apply (world_with_answers ["12345"; "7"]). discriminate.
  - reflexivity.
  - reflexivity.
  - intros s. reflexivity.
Defined.

(** ** Abnormal termination *)

Lemma get_ids_raises data e : get_ids data = Raised e -> e = AttributeError.
Proof.
  unfold get_ids, py_get. intros H.
  destruct data; try congruence.
  destruct (assoc "esearchresult" items) as [[]|]; try congruence;
    destruct (assoc "idlist" _); congruence.
Qed.

Lemma str_join_raises sep v e : str_join sep v = Raised e -> e = TypeError.
Proof.
  unfold str_join. intros H.
  destruct v; try congruence. destruct (all_str l); congruence.
Qed.

(** C8, as stated, fails in its last part: a rejected XML text is not the
    only way to an exception.  When the search endpoint answers with status
    200 and a body that is not JSON, [response.json()] raises and nothing
    catches it. *)
Lemma only_parse_failure_counterexample :
  ~ (forall w query e,
        outcome (fetch_papers w query) = Raised e ->
        exists joined r2,
          fetch_answers w query joined r2 /\
          status_code r2 = 200 /\
          ET_fromstring w (text r2) = None).
Proof.
  intros H.
  destruct (H world_html "cancer" JSONDecodeError) as (joined & r2 & Hans & _).
  - reflexivity.
  - destruct Hans as [(ids & (r & data & Hget & _ & Hjson & _) & _) _].
    vm_compute in Hget. injection Hget as <-. vm_compute in Hjson. discriminate.
Qed.

(** C8, amended: when the fetch step is answered with status 200 and a text
    that the XML parser rejects, [fetch_papers] raises the parse error after
    its two requests, without message and without result.  The other
    exceptions that escape are those of the transport at either request, of
    [response.json()] on a body that is not JSON, of [.get] on a decoded
    value that is not a dict, and of [",".join] on identifiers that are not
    strings; in every other case a list is returned. *)
Theorem abnormal_termination w query :
  (forall joined r2,
      fetch_answers w query joined r2 ->
      status_code r2 = 200 ->
      ET_fromstring w (text r2) = None ->
      run (fetch_papers w query)
      = (Raised ParseError,
         [Get PUBMED_SEARCH_URL (search_params query);
          Get PUBMED_FETCH_URL (details_params joined)])) /\
  (forall e, outcome (fetch_papers w query) = Raised e <-> abnormal_cause w query e).
Proof.
  split.
  - intros joined r2 Hans Hst Hparse.
    rewrite (run_fetch_answered _ _ _ _ Hans Hst), Hparse. reflexivity.
  - intros e. split.
    + unfold abnormal_cause.
      destruct (fetch_papers_path w query); intros Hout; try discriminate;
        injection Hout as <-.
      * left. assumption.
      * right. left. eauto.
      * right. right. left. exists r, data. eauto 6 using get_ids_raises.
      * right. right. right. left. exists ids. eauto using str_join_raises.
      * right. right. right. right. left. eauto.
      * right. right. right. right. right. eauto 6.
    + unfold abnormal_cause, fetch_answers, fetch_sent, search_yields.
      intros Hc. unfold_run.
      repeat (destruct Hc as [Hc|Hc]); destruct_hyps; subst;
        repeat match goal with
               | H : _ = _ |- _ => rewrite H; clear H; simpl
               end; reflexivity.
Qed.

Lemma abnormal_termination_witness :
  run (fetch_papers world_truncated "cancer")
  = (Raised ParseError,
     [Get PUBMED_SEARCH_URL (search_params "cancer");
      Get PUBMED_FETCH_URL (details_params "12345")]).
Proof.
  apply (proj1 (abnormal_termination world_truncated "cancer")
           "12345" (mkResponse 200 "<PubmedArticleSet><PubmedArticle>")).
  - split; [|reflexivity].
    exists (PyList [PyStr "12345"]). split; [|split; reflexivity].
    exists (mkResponse 200 (search_body ["12345"])), (search_json ["12345"]).
    repeat split.
  - reflexivity.
  - reflexivity.
Defined.

(** ** Failure modes and their messages *)

(** C9, as stated, fails for the empty article set: when the fetch response
    parses to a document without [PubmedArticle] element, [fetch_papers]
    returns the empty list and prints nothing. *)
Lemma every_failure_has_message_counterexample :
  ~ (forall w query root,
        fetched w query root ->
        List.filter is_PubmedArticle (ET.below root) = [] ->
        outcome (fetch_papers w query) = Returned [] /\
        exists msg, In (Echo msg) (trace (fetch_papers w query))).
Proof.
  intros H.
  destruct (H (world_with ["12345"] doc_empty_set) "cancer" doc_empty_set)
    as (_ & msg & Hin).
  - apply world_with_fetched. discriminate.
  - reflexivity.
  - vm_compute in Hin. destruct Hin as [Hin|[Hin|[]]]; discriminate.
Qed.

(** C9, amended: every failure mode makes [fetch_papers] return the empty
    list.  A status other than 200 at the search step, an empty identifier
    list and a status other than 200 at the fetch step are each accompanied
    by one message, printed by [fetch_papers] and not returned.  For an empty
    article set [fetch_papers] prints nothing; the message then comes from
    the caller: [get_papers] ends with "No papers found." whenever
    [fetch_papers] returns the empty list. *)
Theorem failure_modes w query :
  (forall r,
      requests_get w PUBMED_SEARCH_URL (search_params query) = Returned r ->
      status_code r <> 200 ->
      run (fetch_papers w query)
      = (Returned [],
         [Get PUBMED_SEARCH_URL (search_params query);
          Echo "Error: Failed to fetch data from PubMed."])) /\
  (forall ids,
      search_yields w query ids ->
      truthy ids = false ->
      run (fetch_papers w query)
      = (Returned [],
         [Get PUBMED_SEARCH_URL (search_params query);
          Echo "No papers found for the given query."])) /\
  (forall joined r2,
      fetch_answers w query joined r2 ->
      status_code r2 <> 200 ->
      run (fetch_papers w query)
      = (Returned [],
         [Get PUBMED_SEARCH_URL (search_params query);
          Get PUBMED_FETCH_URL (details_params joined);
          Echo "Error: Failed to fetch paper details."])) /\
  (forall root,
      fetched w query root ->
      List.filter is_PubmedArticle (ET.below root) = [] ->
      outcome (fetch_papers w query) = Returned [] /\
      forall msg, ~ In (Echo msg) (trace (fetch_papers w query))) /\
  (outcome (fetch_papers w query) = Returned [] ->
   forall file debug,
     outcome (get_papers w query file debug) = Returned tt /\
     last (trace (get_papers w query file debug)) = Some (Echo "No papers found.")).
Proof.
  split; [|split; [|split; [|split]]].
  - intros r Hget Hst. apply Z.eqb_neq in Hst.
    unfold_run. rewrite Hget; simpl. rewrite Hst. reflexivity.
  - intros ids (r & data & H1 & H2 & H3 & H4) Htr.
    unfold_run. rewrite H1; simpl. rewrite H2; simpl. rewrite H3; simpl.
    rewrite H4; simpl. rewrite Htr. reflexivity.
  - intros joined r2 [(ids & (r & data & H1 & H2 & H3 & H4) & Htr & Hj) Hget] Hst.
    apply Z.eqb_neq in Hst.
    unfold_run. rewrite H1; simpl. rewrite H2; simpl. rewrite H3; simpl.
    rewrite H4; simpl. rewrite Htr; simpl. rewrite Hj; simpl. rewrite Hget; simpl.
    rewrite Hst. reflexivity.
  - intros root Hf Hnone. destruct (fetched_run _ _ _ Hf) as [joined Hrun].
    unfold outcome, trace. rewrite Hrun, extract_map, Hnone. split; [reflexivity|].
    intros msg [Hin|[Hin|[]]]; discriminate.
  - intros Hout file debug.
    unfold outcome, trace, run, get_papers, bind in *.
    destruct (fetch_papers w query []) as [[papers|e] tr]; simpl in Hout;
      [|discriminate].
    injection Hout as ->.
    destruct debug; simpl; unfold echo, emit, ret; simpl;
      split; try reflexivity; apply last_snoc.
Qed.

Lemma failure_modes_witness :
  run (fetch_papers world_search_500 "cancer")
  = (Returned [],
     [Get PUBMED_SEARCH_URL (search_params "cancer");
      Echo "Error: Failed to fetch data from PubMed."]) /\
  last (trace (get_papers (world_with ["12345"] doc_empty_set) "cancer" None false))
  = Some (Echo "No papers found.").
Proof.
  split.
  - apply (proj1 (failure_modes world_search_500 "cancer")
             (mkResponse 500 "Internal Server Error")).
    + reflexivity.
    + vm_compute. discriminate.
  - apply (proj2 (proj2 (proj2 (proj2
             (failure_modes (world_with ["12345"] doc_empty_set) "cancer"))))).
    reflexivity.
Defined.

(** * Further properties of [fetch_papers] *)

(** ** The requests and messages of an execution *)

(** X1: every execution of [fetch_papers] starts with the search request,
    which carries the query unchanged and asks for JSON and at most ten
    results.  At most one request follows; it goes to the fetch endpoint,
    asks for XML, and its [id] is the result of [",".join(ids)] for the
    identifiers [ids] that line 26 reads from the search answer.  Nothing is
    written to a file. *)
Theorem fetch_papers_requests w query :
  exists rest,
    trace (fetch_papers w query)
    = Get PUBMED_SEARCH_URL
        [("db", PyStr "pubmed"); ("term", PyStr query);
         ("retmode", PyStr "json"); ("retmax", PyInt 10)] :: rest /\
    (List.length (List.filter is_Get rest) <= 1)%nat /\
    (forall url params,
        In (Get url params) rest ->
        url = PUBMED_FETCH_URL /\
        exists ids joined,
          search_yields w query ids /\
          truthy ids = true /\
          str_join "," ids = Returned joined /\
          params = [("db", PyStr "pubmed"); ("id", PyStr joined); ("retmode", PyStr "xml")]) /\
    (forall file rows, ~ In (ToCsv file rows) (trace (fetch_papers w query))).
Proof.
  destruct (fetch_papers_path w query) as
    [ | | | | | | j e Hs _ | j r2 [Hs _] _ | j r2 [Hs _] _ _ | j r2 root [Hs _] _ _ ];
    eexists; (split; [reflexivity|]);
    (split; [simpl; lia|]);
    (split;
     [ intros url params Hin; simpl in Hin; try contradiction;
       repeat (destruct Hin as [Hin|Hin]; try discriminate; try contradiction);
       injection Hin as <- <-; destruct Hs as (ids & Hy & Htr & Hj);
       (split; [reflexivity|exists ids, j; auto])
     | intros file rows Hin; simpl in Hin; try contradiction;
       repeat (destruct Hin as [Hin|Hin]; try discriminate; try contradiction) ]).
Qed.

Lemma fetch_papers_requests_witness :
  exists ids joined,
    search_yields world_str_ids "cancer" ids /\
    truthy ids = true /\
    str_join "," ids = Returned joined /\
    details_params "é,1"
    = [("db", PyStr "pubmed"); ("id", PyStr joined); ("retmode", PyStr "xml")].
Proof.
  destruct (fetch_papers_requests world_str_ids "cancer") as (rest & Htrace & _ & Hget & _).
  vm_compute in Htrace. injection Htrace as <-.
  apply (Hget PUBMED_FETCH_URL (details_params "é,1")).
  left. reflexivity.
Defined.

(** X2: the identifiers found by the search are sent to the fetch endpoint
    in the order of the search answer, joined with commas, as the second
    event of the execution. *)
Theorem ids_joined_in_search_order w query ids :
  ids <> [] ->
  search_yields w query (PyList (List.map PyStr ids)) ->
  trace (fetch_papers w query) !! 1%nat
  = Some (Get PUBMED_FETCH_URL
            [("db", PyStr "pubmed"); ("id", PyStr (String.concat "," ids));
             ("retmode", PyStr "xml")]).
Proof.
  intros Hne (r & data & H1 & H2 & H3 & H4).
  assert (Hall : all_str (List.map PyStr ids) = Some ids).
  { clear. induction ids as [|x l IH]; simpl; [reflexivity|]. rewrite IH. reflexivity. }
  unfold_run. rewrite H1; simpl. rewrite H2; simpl. rewrite H3; simpl.
  rewrite H4; simpl. destruct ids as [|i ids]; [contradiction|]. simpl.
  simpl in Hall. rewrite Hall. simpl.
  destruct (requests_get w PUBMED_FETCH_URL _) as [r2|e]; simpl; [|reflexivity].
  destruct (negb (status_code r2 =? 200)); simpl; [reflexivity|].
  destruct (ET_fromstring w (text r2)); reflexivity.
Qed.

Lemma ids_joined_in_search_order_witness :
  trace (fetch_papers (world_with ["12345"; "7"] doc_12345) "cancer") !! 1%nat
  = Some (Get PUBMED_FETCH_URL
            [("db", PyStr "pubmed"); ("id", PyStr "12345,7"); ("retmode", PyStr "xml")]).
Proof.
  apply (ids_joined_in_search_order (world_with ["12345"; "7"] doc_12345) "cancer"
           ["12345"; "7"]).
  - discriminate.
  - exists (mkResponse 200 (search_body ["12345"; "7"])), (search_json ["12345"; "7"]).
    repeat split.
Defined.

(** X3: [fetch_papers] prints a message only when it returns the empty list:
    the message is then the last thing it does, it is the only message, and
    it is one of three texts.  An execution that returns records or raises
    prints nothing. *)
Theorem message_only_with_empty_result w query msg :
  In (Echo msg) (trace (fetch_papers w query)) ->
  outcome (fetch_papers w query) = Returned [] /\
  last (trace (fetch_papers w query)) = Some (Echo msg) /\
  List.length (List.filter is_Echo (trace (fetch_papers w query))) = 1%nat /\
  In msg ["Error: Failed to fetch data from PubMed.";
          "No papers found for the given query.";
          "Error: Failed to fetch paper details."].
Proof.
  destruct (fetch_papers_path w query); intros Hin; simpl in Hin;
    try contradiction;
    repeat (destruct Hin as [Hin|Hin]; try discriminate; try contradiction);
    injection Hin as <-;
    (split; [reflexivity|split; [reflexivity|split; [reflexivity|simpl; auto]]]).
Qed.

Lemma message_only_with_empty_result_witness :
  outcome (fetch_papers world_search_500 "cancer") = Returned [] /\
  last (trace (fetch_papers world_search_500 "cancer"))
  = Some (Echo "Error: Failed to fetch data from PubMed.").
Proof.
  destruct (message_only_with_empty_result world_search_500 "cancer"
              "Error: Failed to fetch data from PubMed.") as (H1 & H2 & _).
  - vm_compute. right. left. reflexivity.
  - split; [exact H1|exact H2].
Defined.

(** ** Search answers of an unexpected shape *)

Lemma run_search_decoded w query r data :
  requests_get w PUBMED_SEARCH_URL (search_params query) = Returned r ->
  status_code r = 200 ->
  json_loads w (text r) = Some data ->
  forall e, get_ids data = Raised e ->
  run (fetch_papers w query)
  = (Raised e, [Get PUBMED_SEARCH_URL (search_params query)]).
Proof.
  intros H1 H2 H3 e H4. unfold_run.
  rewrite H1; simpl. rewrite H2; simpl. rewrite H3; simpl. rewrite H4. reflexivity.
Qed.

Lemma run_no_ids w query ids :
  search_yields w query ids ->
  truthy ids = false ->
  run (fetch_papers w query)
  = (Returned [],
     [Get PUBMED_SEARCH_URL (search_params query);
      Echo "No papers found for the given query."]).
Proof.
  intros (r & data & H1 & H2 & H3 & H4) Htr. unfold_run.
  rewrite H1; simpl. rewrite H2; simpl. rewrite H3; simpl. rewrite H4; simpl.
  rewrite Htr. reflexivity.
Qed.

(** X4: the defaults of line 26 apply to missing keys.  When the search
    answer has status 200 and decodes to an object without
    ["esearchresult"], or whose ["esearchresult"] is an object without
    ["idlist"], the execution is that of an empty search: the empty list, the
    message that no papers were found, and no second request. *)
Theorem missing_keys_mean_no_papers w query r items :
  requests_get w PUBMED_SEARCH_URL (search_params query) = Returned r ->
  status_code r = 200 ->
  json_loads w (text r) = Some (PyDict items) ->
  assoc "esearchresult" items = None \/
  (exists inner,
      assoc "esearchresult" items = Some (PyDict inner) /\
      assoc "idlist" inner = None) ->
  run (fetch_papers w query)
  = (Returned [],
     [Get PUBMED_SEARCH_URL (search_params query);
      Echo "No papers found for the given query."]).
Proof.
  intros H1 H2 H3 Hkeys.
  apply (run_no_ids w query (PyList [])); [|reflexivity].
  exists r, (PyDict items). repeat (split; [assumption|]).
  unfold get_ids, py_get. destruct Hkeys as [->|(inner & -> & ->)]; reflexivity.
Qed.

Lemma missing_keys_mean_no_papers_witness :
  run (fetch_papers world_error_object "cancer")
  = (Returned [],
     [Get PUBMED_SEARCH_URL (search_params "cancer");
      Echo "No papers found for the given query."]).
Proof.
  apply (missing_keys_mean_no_papers world_error_object "cancer"
           (mkResponse 200 error_body) [("error", PyStr "API rate limit exceeded")]).
  - reflexivity.
  - reflexivity.
  - reflexivity.
  - left. reflexivity.
Defined.

(** X5: the defaults do not apply to a key that is present.  When the
    decoded answer is not an object, or its ["esearchresult"] is present and
    is not an object (for instance null), [fetch_papers] raises
    [AttributeError] after the search request; nothing is printed and no
    second request is sent. *)
Theorem present_non_object_raises w query r data :
  requests_get w PUBMED_SEARCH_URL (search_params query) = Returned r ->
  status_code r = 200 ->
  json_loads w (text r) = Some data ->
  (forall items, data <> PyDict items) \/
  (exists items v,
      data = PyDict items /\ assoc "esearchresult" items = Some v /\
      forall inner, v <> PyDict inner) ->
  run (fetch_papers w query)
  = (Raised AttributeError, [Get PUBMED_SEARCH_URL (search_params query)]).
Proof.
  intros H1 H2 H3 Hshape.
  apply (run_search_decoded w query r data H1 H2 H3).
  unfold get_ids, py_get.
  destruct Hshape as [Hno|(items & v & -> & -> & Hno)].
  - destruct data; try reflexivity. exfalso. exact (Hno items eq_refl).
  - destruct v; try reflexivity. exfalso. exact (Hno items0 eq_refl).
Qed.

Lemma present_non_object_raises_witness :
  run (fetch_papers world_null_result "cancer")
  = (Raised AttributeError, [Get PUBMED_SEARCH_URL (search_params "cancer")]).
Proof.
  apply (present_non_object_raises world_null_result "cancer"
           (mkResponse 200 null_result_body) (PyDict [("esearchresult", PyNone)])).
  - reflexivity.
  - reflexivity.
  - reflexivity.
  - right. exists [("esearchresult", PyNone)], PyNone.
    split; [reflexivity|]. split; [reflexivity|]. discriminate.
Defined.

Lemma all_str_None l :
  (exists v, In v l /\ forall s, v <> PyStr s) -> all_str l = None.
Proof.
  intros (v & Hin & Hv). induction l as [|x l IH]; [destruct Hin|].
  destruct Hin as [->|Hin].
  - destruct v; try reflexivity. exfalso. exact (Hv s eq_refl).
  - simpl. rewrite (IH Hin). destruct x; reflexivity.
Qed.

(** X6: the identifiers must be strings.  When the identifier list of the
    search answer holds an item that is not a string, joining it raises
    [TypeError]: the execution ends after the search request, before any
    request to the fetch endpoint, and prints nothing. *)
Theorem non_string_id_raises_before_fetch w query l :
  search_yields w query (PyList l) ->
  (exists v, In v l /\ forall s, v <> PyStr s) ->
  run (fetch_papers w query)
  = (Raised TypeError, [Get PUBMED_SEARCH_URL (search_params query)]).
Proof.
  intros (r & data & H1 & H2 & H3 & H4) Hbad.
  pose proof (all_str_None l Hbad) as Hall.
  assert (Htr : truthy (PyList l) = true).
  { destruct Hbad as (v & Hin & _). destruct l; [destruct Hin|reflexivity]. }
  unfold_run. rewrite H1; simpl. rewrite H2; simpl. rewrite H3; simpl.
  rewrite H4; simpl. simpl in Htr. rewrite Htr; simpl. rewrite Hall. reflexivity.
Qed.

Lemma non_string_id_raises_before_fetch_witness :
  run (fetch_papers world_numeric_ids "cancer")
  = (Raised TypeError, [Get PUBMED_SEARCH_URL (search_params "cancer")]).
Proof.
  apply (non_string_id_raises_before_fetch world_numeric_ids "cancer" [PyInt 12345]).
  - exists (mkResponse 200 numeric_ids_body),
      (PyDict [("esearchresult", PyDict [("idlist", PyList [PyInt 12345])])]).
    repeat split.
  - exists (PyInt 12345). split; [left; reflexivity|discriminate].
Defined.

(** * Further properties of the extraction *)

(** ** Which element a field is read from *)

Lemma head_filter_first {A} (p : A -> bool) (l1 l2 : list A) (x : A) :
  (forall y, In y l1 -> p y = false) ->
  p x = true ->
  head (List.filter p (l1 ++ x :: l2)) = Some x.
Proof.
  intros Hl1 Hx. induction l1 as [|y l1 IH]; simpl.
  - rewrite Hx. reflexivity.
  - rewrite (Hl1 y (or_introl eq_refl)). apply IH.
    intros z Hz. apply Hl1. right. exact Hz.
Qed.

Lemma has_tag_false t e : ET.tag e <> t -> has_tag t e = false.
Proof.
  intros H. destruct (has_tag t e) eqn:E; [|reflexivity].
  apply has_tag_true in E. contradiction.
Qed.

Lemma find_descendant_first e t l1 x l2 :
  ET.below e = l1 ++ x :: l2 ->
  (forall y, In y l1 -> ET.tag y <> t) ->
  ET.tag x = t ->
  ET.find e [ET.Self; ET.Descendant t] = Some x.
Proof.
  intros Hsplit Hl1 Hx. rewrite find_descendant, Hsplit.
  apply head_filter_first.
  - intros y Hy. apply has_tag_false, Hl1, Hy.
  - apply has_tag_true, Hx.
Qed.

(** X7: the identifier of a record is read from the first [PMID] element in
    document order below the record-node, at any depth, and the title from
    the first [ArticleTitle] element; later elements with the same tag, such
    as the [PMID] of a cited article, do not matter. *)
Theorem first_element_in_document_order article l1 x l2 :
  ET.below article = l1 ++ x :: l2 ->
  (ET.tag x = "PMID" ->
   (forall y, In y l1 -> ET.tag y <> "PMID") ->
   paper_of article !! "PubmedID" = Some (py_opt_str (ET.text x))) /\
  (ET.tag x = "ArticleTitle" ->
   (forall y, In y l1 -> ET.tag y <> "ArticleTitle") ->
   paper_of article !! "Title" = Some (py_opt_str (ET.text x))).
Proof.
  intros Hsplit.
  destruct (paper_of_lookup article) as (Hid & Htitle & _ & _).
  split; intros Hx Hl1.
  - rewrite Hid. unfold path_PMID.
    rewrite (find_descendant_first _ _ _ _ _ Hsplit Hl1 Hx). reflexivity.
  - rewrite Htitle. unfold path_ArticleTitle.
    rewrite (find_descendant_first _ _ _ _ _ Hsplit Hl1 Hx). reflexivity.
Qed.

Lemma first_element_in_document_order_witness :
  paper_of article_two_pmids !! "PubmedID" = Some (PyStr "111").
Proof.
  refine (proj1 (first_element_in_document_order article_two_pmids
                   [el "MedlineCitation" None
                      [el "PMID" (Some "111") [];
                       el "Article" None [el "ArticleTitle" (Some "A reply") []];
                       el "CommentsCorrectionsList" None
                         [el "CommentsCorrections" None [el "PMID" (Some "222") []]]]]
                   (el "PMID" (Some "111") [])
                   [el "Article" None [el "ArticleTitle" (Some "A reply") []];
                    el "ArticleTitle" (Some "A reply") [];
                    el "CommentsCorrectionsList" None
                      [el "CommentsCorrections" None [el "PMID" (Some "222") []]];
                    el "CommentsCorrections" None [el "PMID" (Some "222") []];
                    el "PMID" (Some "222") []] _) _ _).
  - reflexivity.
  - reflexivity.
  - intros y [<-|[]]. discriminate.
Defined.

(** X8: the abstract of a record is the text of the first [AbstractText]
    child of the first [Abstract] element, in document order below the
    record-node, that has such a child.  The other sections of a structured
    abstract are not part of the record. *)
Theorem abstract_is_first_section article l1 a l2 c :
  List.filter (has_tag "Abstract") (ET.below article) = l1 ++ a :: l2 ->
  (forall a', In a' l1 -> first_child "AbstractText" a' = None) ->
  first_child "AbstractText" a = Some c ->
  paper_of article !! "Abstract" = Some (py_opt_str (ET.text c)).
Proof.
  intros Hsplit Hl1 Hc.
  destruct (paper_of_lookup article) as (_ & _ & -> & _).
  unfold ET.find, path_AbstractText.
  fold (ET.findall article [ET.Self; ET.Descendant "Abstract"; ET.Child "AbstractText"]).
  rewrite findall_descendant_child, Hsplit.
  assert (Hhead : head (flat_map
                          (fun x => List.filter (has_tag "AbstractText") (ET.children x))
                          (l1 ++ a :: l2)) = Some c).
  { clear Hsplit. induction l1 as [|a' l1 IH]; simpl.
    - unfold first_child in Hc.
      destruct (List.filter (has_tag "AbstractText") (ET.children a)); [discriminate|].
      exact Hc.
    - pose proof (Hl1 a' (or_introl eq_refl)) as Hnone. unfold first_child in Hnone.
      destruct (List.filter (has_tag "AbstractText") (ET.children a')); [|discriminate].
      simpl. apply IH. intros b Hb. apply Hl1. right. exact Hb. }
  rewrite Hhead. reflexivity.
Qed.

Lemma abstract_is_first_section_witness :
  paper_of article_structured_abstract !! "Abstract" = Some (PyStr "Background text.").
Proof.
  apply (abstract_is_first_section article_structured_abstract
           [el "Abstract" None [el "CopyrightInformation" (Some "2024") []]]
           (el "Abstract" None
              [el "AbstractText" (Some "Background text.") [];
               el "AbstractText" (Some "Methods text.") []])
           []
           (el "AbstractText" (Some "Background text.") [])).
  - reflexivity.
  - intros a' [<-|[]]. reflexivity.
  - reflexivity.
Defined.

(** ** The authors field and its default *)

Lemma has_space_app a b : has_space (a +:+ b) = has_space a || has_space b.
Proof.
  induction a as [|c a IH]; simpl; [reflexivity|].
  rewrite IH, orb_assoc. reflexivity.
Qed.

Lemma has_space_concat sep x l :
  has_space x = true -> has_space (String.concat sep (x :: l)) = true.
Proof.
  intros Hx. destruct l as [|y l]; simpl; [exact Hx|].
  rewrite has_space_app, Hx. reflexivity.
Qed.

Lemma contribution_qualifies author :
  contribution author = [] <-> qualifies author = false.
Proof.
  unfold contribution, qualifies.
  destruct (first_child "ForeName" author), (first_child "LastName" author);
    split; intros H; try reflexivity; discriminate.
Qed.

Lemma contribution_has_space author s :
  In s (contribution author) -> has_space s = true.
Proof.
  unfold contribution.
  destruct (first_child "ForeName" author), (first_child "LastName" author);
    intros Hin; try destruct Hin as [<-|[]]; try destruct Hin.
  rewrite !has_space_app. simpl. apply orb_true_r.
Qed.

(** X9: the authors field is "N/A" exactly when no [Author] element below
    the record-node has both a [ForeName] child and a [LastName] child.  A
    list of names is never mistaken for the default, whatever the texts of
    the names are, because every pair contains a space. *)
Theorem authors_default_iff_none_qualifies article :
  paper_of article !! "Authors" = Some (PyStr "N/A") <->
  forall author,
    In author (List.filter (has_tag "Author") (ET.below article)) ->
    qualifies author = false.
Proof.
  destruct (paper_of_lookup article) as (_ & _ & _ & ->).
  rewrite authors_list_of_contributions.
  set (authors := List.filter (has_tag "Author") (ET.below article)).
  split.
  - intros Hna author Hin. apply contribution_qualifies.
    destruct (flat_map contribution authors) as [|s rest] eqn:E.
    + destruct (contribution author) as [|p ps] eqn:Ec; [reflexivity|].
      assert (Hp : In p (flat_map contribution authors)).
      { apply in_flat_map. exists author. split; [exact Hin|]. rewrite Ec. left. reflexivity. }
      rewrite E in Hp. destruct Hp.
    + exfalso.
      assert (Hs : has_space s = true).
      { assert (Hin' : In s (flat_map contribution authors)) by (rewrite E; left; reflexivity).
        apply in_flat_map in Hin' as (au & _ & Hau).
        exact (contribution_has_space _ _ Hau). }
      pose proof (has_space_concat ", " s rest Hs) as Hj.
      injection Hna as Hna.
      assert (Hc : has_space "N/A" = true) by (rewrite <- Hna; exact Hj).
      discriminate Hc.
  - intros Hnone.
    replace (flat_map contribution authors) with (@nil string); [reflexivity|].
    symmetry. induction authors as [|au l IH]; [reflexivity|].
    simpl. rewrite (proj2 (contribution_qualifies au) (Hnone au (or_introl eq_refl))).
    simpl. apply IH. intros b Hb. apply Hnone. right. exact Hb.
Qed.

Lemma authors_default_iff_none_qualifies_witness :
  paper_of article_markup_title !! "Authors" = Some (PyStr "N/A").
Proof.
  apply (proj2 (authors_default_iff_none_qualifies article_markup_title)).
  intros author Hin. vm_compute in Hin. destruct Hin.
Defined.

(** * Properties of [get_papers] *)

(** The execution of [get_papers] in terms of the execution of
    [fetch_papers]. *)
Lemma get_papers_run w query file debug :
  run (get_papers w query file debug)
  = match outcome (fetch_papers w query) with
    | Raised e => (Raised e, trace (fetch_papers w query))
    | Returned papers =>
        let tr := trace (fetch_papers w query) ++ debug_events debug papers in
        match papers with
        | [] => (Returned tt, tr ++ [Echo "No papers found."])
        | _ :: _ =>
            match file with
            | Some f =>
                if file_given file then
                  match df_to_csv w f papers with
                  | Returned _ =>
                      (Returned tt,
                       tr ++ [ToCsv f papers; Echo ("Saved results to " +:+ f +:+ ".")])
                  | Raised e => (Raised e, tr ++ [ToCsv f papers])
                  end
                else (Returned tt, tr ++ [Echo (df_to_string w papers)])
            | None => (Returned tt, tr ++ [Echo (df_to_string w papers)])
            end
        end
    end.
Proof.
  unfold outcome, trace, run, get_papers. unfold bind at 1.
  destruct (fetch_papers w query []) as [[papers|e] tr]; [|reflexivity].
  cbn [fst snd]. unfold debug_events, file_given.
  destruct debug, papers as [|p ps], file as [f|];
    unfold bind, echo, emit, lift, ret; cbn [fst snd];
    rewrite ?app_nil_r; try reflexivity;
    destruct (negb (String.eqb f "")); try reflexivity;
    destruct (df_to_csv w f _) as [[]|e]; rewrite <- ?app_assoc; reflexivity.
Qed.

Lemma fetch_papers_no_csv w query file rows :
  ~ In (ToCsv file rows) (trace (fetch_papers w query)).
Proof.
  destruct (fetch_papers_path w query); intros Hin; simpl in Hin;
    repeat (destruct Hin as [Hin|Hin]; try discriminate; try contradiction).
Qed.

Lemma debug_events_no_csv debug papers file rows :
  ~ In (ToCsv file rows) (debug_events debug papers).
Proof. destruct debug; simpl; [intros [H|[]]; discriminate|intros []]. Qed.

Lemma file_given_Some f : file_given (Some f) = true <-> f <> "".
Proof.
  unfold file_given. destruct (String.eqb_spec f ""); simpl; split; congruence.
Qed.

(** X10: [get_papers] writes a file only when a file name that is not empty
    was given and [fetch_papers] returned at least one record; what it
    writes are the records returned by [fetch_papers].  No file is written
    for an empty result, for an empty file name or after an exception. *)
Theorem csv_written_only_when w query file debug f rows :
  In (ToCsv f rows) (trace (get_papers w query file debug)) ->
  file = Some f /\ f <> "" /\ rows <> [] /\
  outcome (fetch_papers w query) = Returned rows.
Proof.
  unfold trace at 1. rewrite get_papers_run.
  pose proof (fetch_papers_no_csv w query f rows) as Hfp.
  destruct (outcome (fetch_papers w query)) as [papers|e]; [|intros H; contradiction].
  cbv zeta. pose proof (debug_events_no_csv debug papers f rows) as Hdbg.
  assert (Hpre : ~ In (ToCsv f rows)
                   (trace (fetch_papers w query) ++ debug_events debug papers)).
  { intros H. apply in_app_or in H as [H|H]; contradiction. }
  assert (Hecho : forall m, ~ In (ToCsv f rows)
                   ((trace (fetch_papers w query) ++ debug_events debug papers)
                      ++ [Echo m])).
  { intros m H. apply in_app_or in H as [H|[H|[]]]; [contradiction|discriminate]. }
  destruct papers as [|p ps]; [intros H; exfalso; exact (Hecho _ H)|].
  destruct file as [f'|]; [|intros H; exfalso; exact (Hecho _ H)].
  destruct (file_given (Some f')) eqn:Hgiven; [|intros H; exfalso; exact (Hecho _ H)].
  apply file_given_Some in Hgiven.
  destruct (df_to_csv w f' (p :: ps)) as [[]|e]; cbn [snd]; intros H;
    apply in_app_or in H as [H|H]; try contradiction; simpl in H;
    repeat (destruct H as [H|H]; try discriminate; try contradiction);
    injection H as <- <-; repeat split; try assumption; discriminate.
Qed.

Lemma csv_written_only_when_witness :
  outcome (fetch_papers (world_with ["12345"] doc_12345) "cancer")
  = Returned (extract doc_12345).
Proof.
  refine (proj2 (proj2 (proj2
            (csv_written_only_when (world_with ["12345"] doc_12345) "cancer"
               (Some "out.csv") false "out.csv" (extract doc_12345) _)))).
  vm_compute. right. right. left. reflexivity.
Defined.

(** X11: [get_papers] raises exactly when [fetch_papers] raises, with the
    same exception, or when records were returned, a non-empty file name was
    given and writing the file raises.  It catches nothing and adds no
    failure of its own. *)
Theorem get_papers_raises_iff w query file debug e :
  outcome (get_papers w query file debug) = Raised e <->
  outcome (fetch_papers w query) = Raised e \/
  exists papers f,
    outcome (fetch_papers w query) = Returned papers /\
    papers <> [] /\ file = Some f /\ f <> "" /\
    df_to_csv w f papers = Raised e.
Proof.
  unfold outcome at 1. rewrite get_papers_run.
  destruct (outcome (fetch_papers w query)) as [papers|e'].
  - cbv zeta. split.
    + destruct papers as [|p ps]; [discriminate|].
      destruct file as [f|]; [|discriminate].
      destruct (file_given (Some f)) eqn:Hgiven; [|discriminate].
      apply file_given_Some in Hgiven.
      destruct (df_to_csv w f (p :: ps)) as [[]|e''] eqn:Hcsv; [discriminate|].
      cbn [fst]. intros H. injection H as ->. right. exists (p :: ps), f.
      repeat split; try assumption; discriminate.
    + intros [H|(papers' & f & H & Hne & -> & Hf & Hcsv)]; [discriminate|].
      injection H as ->. destruct papers' as [|p ps]; [contradiction|].
      apply file_given_Some in Hf. rewrite Hf, Hcsv. reflexivity.
  - cbn [fst]. split.
    + intros H. left. congruence.
    + intros [H|(papers & f & H & _)]; [congruence|discriminate].
Qed.

Lemma get_papers_raises_iff_witness :
  outcome (get_papers (world_read_only ["12345"] doc_12345) "cancer"
             (Some "out.csv") false) = Raised OSError /\
  outcome (get_papers world_html "cancer" None true) = Raised JSONDecodeError.
Proof.
  split.
  - apply (proj2 (get_papers_raises_iff (world_read_only ["12345"] doc_12345) "cancer"
                    (Some "out.csv") false OSError)).
    right. exists (extract doc_12345), "out.csv".
    split; [vm_compute; reflexivity|]. split; [vm_compute; discriminate|].
    split; [reflexivity|]. split; [discriminate|reflexivity].
  - apply (proj2 (get_papers_raises_iff world_html "cancer" None true JSONDecodeError)).
    left. reflexivity.
Defined.

(** X12: the debug flag changes nothing but one message.  With and without
    it [get_papers] ends alike; when [fetch_papers] returns, the events are
    the same except for the message with the number of records, printed
    right after the events of [fetch_papers]; when [fetch_papers] raises,
    not even that message is printed. *)
Theorem debug_adds_one_message w query file :
  outcome (get_papers w query file true) = outcome (get_papers w query file false) /\
  (forall papers,
      outcome (fetch_papers w query) = Returned papers ->
      exists rest,
        trace (get_papers w query file false)
        = trace (fetch_papers w query) ++ rest /\
        trace (get_papers w query file true)
        = trace (fetch_papers w query)
            ++ Echo ("Fetched " +:+ py_str_nat (List.length papers) +:+ " papers.")
            :: rest) /\
  (forall e,
      outcome (fetch_papers w query) = Raised e ->
      trace (get_papers w query file true) = trace (fetch_papers w query)).
Proof.
  unfold outcome at 1 2. unfold trace at 1 3 5. rewrite !get_papers_run.
  destruct (outcome (fetch_papers w query)) as [papers|e].
  - cbv zeta. unfold debug_events. rewrite app_nil_r.
    assert (Hshape : forall (r : result unit) (tail : list event),
      fst (r, (trace (fetch_papers w query)
                 ++ [Echo ("Fetched " +:+ py_str_nat (List.length papers) +:+ " papers.")])
                ++ tail)
      = fst (r, trace (fetch_papers w query) ++ tail) /\
      exists rest,
        snd (r, trace (fetch_papers w query) ++ tail)
        = trace (fetch_papers w query) ++ rest /\
        snd (r, (trace (fetch_papers w query)
                   ++ [Echo ("Fetched " +:+ py_str_nat (List.length papers) +:+ " papers.")])
                  ++ tail)
        = trace (fetch_papers w query)
            ++ Echo ("Fetched " +:+ py_str_nat (List.length papers) +:+ " papers.")
            :: rest).
    { intros r tail. split; [reflexivity|]. exists tail.
      split; [reflexivity|]. cbn [snd]. rewrite <- app_assoc. reflexivity. }
    assert (Hall :
      (let tr := trace (fetch_papers w query)
                   ++ [Echo ("Fetched " +:+ py_str_nat (List.length papers) +:+ " papers.")] in
       exists r tail, forall tr0 : list event,
         match papers with
         | [] => (Returned tt, tr0 ++ [Echo "No papers found."])
         | _ :: _ =>
             match file with
             | Some f =>
                 if file_given file then
                   match df_to_csv w f papers with
                   | Returned _ =>
                       (Returned tt,
                        tr0 ++ [ToCsv f papers; Echo ("Saved results to " +:+ f +:+ ".")])
                   | Raised e => (Raised e, tr0 ++ [ToCsv f papers])
                   end
                 else (Returned tt, tr0 ++ [Echo (df_to_string w papers)])
             | None => (Returned tt, tr0 ++ [Echo (df_to_string w papers)])
             end
         end = (r, tr0 ++ tail))).
    { cbv zeta. destruct papers as [|p ps]; [eexists _, _; intros; reflexivity|].
      destruct file as [f|]; [|eexists _, _; intros; reflexivity].
      destruct (file_given (Some f)); [|eexists _, _; intros; reflexivity].
      destruct (df_to_csv w f (p :: ps)) as [[]|e]; eexists _, _; intros; reflexivity. }
    cbv zeta in Hall. destruct Hall as (r & tail & Hall). rewrite !Hall.
    destruct (Hshape r tail) as [Hfst Hsnd].
    split; [exact Hfst|]. split; [|intros e H; discriminate].
    intros papers' H. injection H as <-. exact Hsnd.
  - split; [reflexivity|]. split; [intros papers H; discriminate|].
    intros e' _. reflexivity.
Qed.

(** The two requests of an execution whose fetch response parses. *)
Lemma fetched_trace w query root :
  fetched w query root ->
  exists joined,
    trace (fetch_papers w query)
    = [Get PUBMED_SEARCH_URL (search_params query);
       Get PUBMED_FETCH_URL (details_params joined)].
Proof.
  intros H. destruct (fetched_run _ _ _ H) as [joined Hrun]. exists joined.
  unfold trace. rewrite Hrun. reflexivity.
Qed.

(** X13: from the documents to the screen.  When the fetch response parses
    to [root], at least one [PubmedArticle] element lies below [root] and no
    file name is given (none, or the empty string), [get_papers] makes the
    two requests, prints the table of the records of these elements in
    document order, and ends normally; no file is written. *)
Theorem table_of_the_fetched_records w query root file debug :
  fetched w query root ->
  List.filter is_PubmedArticle (ET.below root) <> [] ->
  file_given file = false ->
  let records := List.map paper_of (List.filter is_PubmedArticle (ET.below root)) in
  exists joined,
    run (get_papers w query file debug)
    = (Returned tt,
       [Get PUBMED_SEARCH_URL (search_params query);
        Get PUBMED_FETCH_URL (details_params joined)]
         ++ debug_events debug records
         ++ [Echo (df_to_string w records)]).
Proof.
  intros Hf Hne Hfile records.
  destruct (fetched_trace _ _ _ Hf) as [joined Htrace]. exists joined.
  rewrite get_papers_run, (fetched_outcome _ _ _ Hf), Htrace, extract_map.
  fold records. cbv zeta.
  assert (Hrec : records <> []).
  { unfold records. intros E. apply map_eq_nil in E. contradiction. }
  destruct records as [|p ps] eqn:Erec; [contradiction|].
  destruct file as [f|]; [rewrite Hfile|]; rewrite <- app_assoc; reflexivity.
Qed.

Lemma table_of_the_fetched_records_witness :
  exists joined,
    run (get_papers (world_with ["12345"] doc_12345) "cancer" (Some "") false)
    = (Returned tt,
       [Get PUBMED_SEARCH_URL (search_params "cancer");
        Get PUBMED_FETCH_URL (details_params joined)]
         ++ debug_events false
              (List.map paper_of (List.filter is_PubmedArticle (ET.below doc_12345)))
         ++ [Echo (df_to_string (world_with ["12345"] doc_12345)
                     (List.map paper_of
                        (List.filter is_PubmedArticle (ET.below doc_12345))))]).
Proof.
  apply (table_of_the_fetched_records (world_with ["12345"] doc_12345) "cancer"
           doc_12345 (Some "") false).
  - apply world_with_fetched. discriminate.
  - vm_compute. discriminate.
  - reflexivity.
Defined.

(** X14: from the documents to the file.  When the fetch response parses to
    [root], at least one [PubmedArticle] element lies below [root] and a
    file name that is not empty is given, [get_papers] writes the records of
    these elements, in document order, to that file.  When the write
    succeeds, the last event is the message that names the file; when it
    raises, the exception escapes and no such message is printed.  The
    table is not printed. *)
Theorem csv_of_the_fetched_records w query root f debug :
  fetched w query root ->
  List.filter is_PubmedArticle (ET.below root) <> [] ->
  f <> "" ->
  let records := List.map paper_of (List.filter is_PubmedArticle (ET.below root)) in
  exists joined,
    let requests :=
      [Get PUBMED_SEARCH_URL (search_params query);
       Get PUBMED_FETCH_URL (details_params joined)] in
    (df_to_csv w f records = Returned tt ->
     run (get_papers w query (Some f) debug)
     = (Returned tt,
        requests ++ debug_events debug records
          ++ [ToCsv f records; Echo ("Saved results to " +:+ f +:+ ".")])) /\
    (forall e,
        df_to_csv w f records = Raised e ->
        run (get_papers w query (Some f) debug)
        = (Raised e, requests ++ debug_events debug records ++ [ToCsv f records])).
Proof.
  intros Hf Hne Hname records.
  destruct (fetched_trace _ _ _ Hf) as [joined Htrace]. exists joined.
  cbv zeta.
  rewrite get_papers_run, (fetched_outcome _ _ _ Hf), Htrace, extract_map.
  fold records. cbv zeta.
  assert (Hrec : records <> []).
  { unfold records. intros E. apply map_eq_nil in E. contradiction. }
  apply file_given_Some in Hname. rewrite Hname.
  destruct records as [|p ps] eqn:Erec; [contradiction|].
  split.
  - intros ->. rewrite <- app_assoc. reflexivity.
  - intros e ->. rewrite <- app_assoc. reflexivity.
Qed.

Lemma csv_of_the_fetched_records_witness :
  exists joined,
    run (get_papers (world_with ["12345"] doc_12345) "cancer" (Some "out.csv") true)
    = (Returned tt,
       [Get PUBMED_SEARCH_URL (search_params "cancer");
        Get PUBMED_FETCH_URL (details_params joined)]
         ++ debug_events true
              (List.map paper_of (List.filter is_PubmedArticle (ET.below doc_12345)))
         ++ [ToCsv "out.csv"
               (List.map paper_of (List.filter is_PubmedArticle (ET.below doc_12345)));
             Echo ("Saved results to " +:+ "out.csv" +:+ ".")]).
Proof.
  destruct (csv_of_the_fetched_records (world_with ["12345"] doc_12345) "cancer"
              doc_12345 "out.csv" true) as (joined & Hok & _).
  - apply world_with_fetched. discriminate.
  - vm_compute. discriminate.
  - discriminate.
  - exists joined. apply Hok. reflexivity.
Defined.

(** X15: a transport failure is not signalled by [get_papers].  When a
    request sent by [fetch_papers] is answered with a status other than 200,
    [get_papers] still ends normally: after the events of [fetch_papers],
    which end with its error message, it prints the debug message for zero
    records if asked to, then "No papers found.", and writes no file. *)
Theorem transport_failure_ends_normally w query file debug url params r :
  In (Get url params) (trace (fetch_papers w query)) ->
  requests_get w url params = Returned r ->
  status_code r <> 200 ->
  exists msg,
    last (trace (fetch_papers w query)) = Some (Echo msg) /\
    In msg ["Error: Failed to fetch data from PubMed.";
            "Error: Failed to fetch paper details."] /\
    run (get_papers w query file debug)
    = (Returned tt,
       (trace (fetch_papers w query) ++ debug_events debug [])
         ++ [Echo "No papers found."]).
Proof.
  intros Hin Hget Hst. rewrite get_papers_run. revert Hin.
  destruct (fetch_papers_path w query); intros Hin;
    unfold fetch_answers, fetch_sent, search_yields in *; destruct_hyps;
    simpl in Hin;
    repeat (destruct Hin as [Hin|Hin]; [try discriminate Hin; injection Hin as <- <-|]);
    try contradiction; try congruence;
    eexists; (split; [reflexivity|split; [simpl; auto|reflexivity]]).
Qed.

Lemma transport_failure_ends_normally_witness :
  run (get_papers world_fetch_502 "cancer" (Some "out.csv") true)
  = (Returned tt,
     (trace (fetch_papers world_fetch_502 "cancer") ++ debug_events true [])
       ++ [Echo "No papers found."]).
Proof.
  destruct (transport_failure_ends_normally world_fetch_502 "cancer" (Some "out.csv") true
              PUBMED_FETCH_URL (details_params "12345") (mkResponse 502 "Bad Gateway"))
    as (msg & _ & _ & Hrun).
  - vm_compute. right. left. reflexivity.
  - reflexivity.
  - vm_compute. discriminate.
  - exact Hrun.
Defined.

(** X16: the second request is sent exactly when the search step answers
    with status 200 and a body that decodes to identifiers which are
    non-empty and can be joined; its parameters carry the joined
    identifiers. *)
Theorem fetch_request_iff w query joined :
  In (Get PUBMED_FETCH_URL (details_params joined)) (trace (fetch_papers w query))
  <-> fetch_sent w query joined.
Proof.
  split.
  - destruct (fetch_papers_path w query) as
      [ | | | | | | j e Hs _ | j r2 [Hs _] _ | j r2 [Hs _] _ _ | j r2 root [Hs _] _ _ ];
      intros Hin; simpl in Hin;
      repeat (destruct Hin as [Hin|Hin]; try discriminate; try contradiction);
      injection Hin as <-; exact Hs.
  - intros (ids & (r & data & H1 & H2 & H3 & H4) & Htr & Hj).
    unfold_run. rewrite H1; simpl. rewrite H2; simpl. rewrite H3; simpl.
    rewrite H4; simpl. rewrite Htr; simpl. rewrite Hj; simpl.
    destruct (requests_get w PUBMED_FETCH_URL (details_params joined)) as [r2|e];
      simpl; [|right; left; reflexivity].
    destruct (negb (status_code r2 =? 200)); simpl; [right; left; reflexivity|].
    destruct (ET_fromstring w (text r2)); simpl; right; left; reflexivity.
Qed.

Lemma fetch_request_iff_witness :
  fetch_sent world_fetch_502 "cancer" "12345" /\
  fetch_sent world_str_ids "cancer" "é,1".
Proof.
  split.
  - apply (proj1 (fetch_request_iff world_fetch_502 "cancer" "12345")).
    vm_compute. right. left. reflexivity.
  - apply (proj1 (fetch_request_iff world_str_ids "cancer" "é,1")).
    vm_compute. right. left. reflexivity.
Defined.

(** * Strings as sequences of code points *)

(** Iterating over a string loses nothing: the characters put together
    again are the string. *)
Lemma chars_concat s : String.concat "" (chars s) = s.
Proof.
  induction s as [|c s' IH]; [reflexivity|].
  cbn [chars]. destruct (chars s') as [|h t] eqn:E.
  - simpl in IH. subst s'. reflexivity.
  - destruct (starts_with_continuation s').
    + rewrite <- IH. destruct t; reflexivity.
    + rewrite <- IH. reflexivity.
Qed.

Lemma chars_pieces s :
  Forall (fun p => match p with
                   | EmptyString => False
                   | String _ rest => all_continuation rest = true
                   end) (chars s) /\
  Forall (fun p => one_code_point p = true) (tail (chars s)) /\
  starts_with_continuation (List.hd "" (chars s)) = starts_with_continuation s.
Proof.
  induction s as [|c s' (Hall & Htail & Hhead)]; [repeat split; constructor|].
  cbn [chars]. destruct (chars s') as [|h t] eqn:E.
  - repeat split; repeat constructor.
  - simpl in Hhead, Htail. inversion Hall as [|? ? Hh Ht]; subst.
    destruct h as [|c' rest]; [contradiction|].
    destruct (starts_with_continuation s') eqn:Es.
    + repeat split.
      * constructor; [|exact Ht]. simpl. simpl in Hhead. rewrite Hhead, Hh. reflexivity.
      * exact Htail.
    + repeat split.
      * constructor; [reflexivity|exact Hall].
      * simpl. constructor; [|exact Htail].
        simpl. simpl in Hhead. rewrite Hhead, Hh. reflexivity.
Qed.

(** Every character that iteration yields is the encoding of one code
    point, when the string does not start in the middle of one. *)
Lemma chars_code_points s :
  starts_with_continuation s = false ->
  Forall (fun p => one_code_point p = true) (chars s).
Proof.
  intros Hs. destruct (chars_pieces s) as (Hall & Htail & Hhead).
  destruct (chars s) as [|h t]; [constructor|].
  simpl in *. constructor; [|exact Htail].
  inversion Hall as [|? ? Hh _]; subst.
  destruct h as [|c rest]; [contradiction|].
  simpl in *. rewrite <- Hhead in Hs. rewrite Hs, Hh. reflexivity.
Qed.

(** A character outside ASCII is one item of the iteration. *)
Example ids_string_joined_by_code_point :
  str_join "," (PyStr "é1") = Returned "é,1".
Proof. reflexivity. Qed.

Example str_ids_request :
  trace (fetch_papers world_str_ids "cancer") !! 1%nat
  = Some (Get PUBMED_FETCH_URL
            [("db", PyStr "pubmed"); ("id", PyStr "é,1"); ("retmode", PyStr "xml")]).
Proof. vm_compute. reflexivity. Qed.
